(** * The OTP entry widget of the MyFarm storefront

    A shallow embedding of [OTPComponent] (src/app/signin/page.tsx, the
    second document of that file) and the properties of its code buffer,
    countdown, verification and resend handlers.

    React state is a record; a handler is a function from the rendered state
    to the next state and the list of effects it performs, in order (focus
    changes, network calls, callbacks of the parent).  An [await] splits a
    handler in two: the part that runs on the click and the part that runs
    when the promise settles. *)

From Stdlib Require Import ZArith String Ascii List Bool Lia DecimalString.
From stdpp Require Import base tactics list strings gmap.
Import ListNotations.

Local Open Scope string_scope.
Local Open Scope list_scope.

(** ** JavaScript values and arrays

    Strings are sequences of 8-bit characters.  The regular expressions of
    the widget ([\d], [\D]) tell ASCII digits from everything else, so a
    character outside ASCII behaves as any other non-digit; [toLowerCase] is
    modelled on ASCII letters. *)

Module JS.

(** The values the widget reads from arrays, responses and errors: a string
    or [undefined] (a hole of an array, a missing property). *)
Inductive value : Type :=
| undefined
| str (s : string).

#[global] Instance value_eq_dec : EqDecision value.
Proof. solve_decision. Defined.

(** [a === b] and [a !== b]. *)
Definition strict_eq (a b : value) : bool := bool_decide (a = b).
Definition strict_neq (a b : value) : bool := negb (strict_eq a b).

(** Truthiness: [undefined] and the empty string are falsy. *)
Definition truthy (v : value) : bool :=
  match v with
  | undefined => false
  | str s => negb (String.eqb s "")
  end.

(** [a[i]]: reading out of range gives [undefined]. *)
Definition get (a : list value) (i : nat) : value := default undefined (a !! i).

(** [a[i] = v]: in range the slot is replaced; out of range the array is
    extended, the slots in between being holes. *)
Definition set (a : list value) (i : nat) (v : value) : list value :=
  if decide (i < length a) then <[i:=v]> a
  else a ++ replicate (i - length a) undefined ++ [v].

(** String conversion as [Array.prototype.join] does it. *)
Definition to_string (v : value) : string :=
  match v with
  | undefined => ""
  | str s => s
  end.

(** [a.join('')]. *)
Definition join (a : list value) : string :=
  foldr (fun v acc => String.append (to_string v) acc) "" a.

(** [for (let i = lo; i < hi; i++) body], the bounds fixed over the loop. *)
Definition for_range {A : Type} (lo : nat) (hi : Z) (body : nat -> A -> A) (a : A) : A :=
  foldl (fun acc i => body i acc) a (seq lo (Z.to_nat (hi - Z.of_nat lo))).

(** [\d]: an ASCII decimal digit. *)
Definition is_digit (c : ascii) : bool :=
  (48 <=? nat_of_ascii c)%nat && (nat_of_ascii c <=? 57)%nat.

(** [/^\d?$/.test(value)]. *)
Definition test_optional_digit (v : string) : bool :=
  match v with
  | EmptyString => true
  | String c EmptyString => is_digit c
  | String _ (String _ _) => false
  end.

(** [s.replace(/\D/g, '')]. *)
Fixpoint strip_non_digits (s : string) : string :=
  match s with
  | EmptyString => EmptyString
  | String c t => if is_digit c then String c (strip_non_digits t) else strip_non_digits t
  end.

(** [s.slice(0, n)] for a non-negative [n]. *)
Definition slice0 (n : nat) (s : string) : string := String.substring 0 n s.

(** [s[i]]: the one-character string at [i], [undefined] out of range. *)
Definition char_at (s : string) (i : nat) : value :=
  match String.get i s with
  | Some c => str (String c EmptyString)
  | None => undefined
  end.

(** [s.substring(lo, hi)] with [lo <= hi]; a negative argument counts as 0. *)
Definition substring (s : string) (lo hi : Z) : string :=
  String.substring (Z.to_nat lo) (Z.to_nat hi - Z.to_nat lo) s.

(** [s.substring(lo)]. *)
Definition substring_from (s : string) (lo : Z) : string :=
  String.substring (Z.to_nat lo) (String.length s - Z.to_nat lo) s.

(** [s.toLowerCase()] on ASCII text. *)
Definition lower_char (c : ascii) : ascii :=
  let n := nat_of_ascii c in
  if (65 <=? n)%nat && (n <=? 90)%nat then ascii_of_nat (n + 32) else c.

Fixpoint toLowerCase (s : string) : string :=
  match s with
  | EmptyString => EmptyString
  | String c t => String (lower_char c) (toLowerCase t)
  end.

(** [hay.startsWith(needle)], the test [includes] makes at each position. *)
Fixpoint starts_with (needle hay : string) : bool :=
  match needle, hay with
  | EmptyString, _ => true
  | String _ _, EmptyString => false
  | String a needle', String b hay' => Ascii.eqb a b && starts_with needle' hay'
  end.

(** [hay.includes(needle)]. *)
Fixpoint includes (hay needle : string) : bool :=
  starts_with needle hay
  || match hay with
     | EmptyString => false
     | String _ t => includes t needle
     end.

End JS.

Import JS.

(** ** Component state, props and effects *)

(** The [useState] cells of [OTPComponent]. *)
Record State : Type := mkState {
  otp : list JS.value;
  timer : Z;
  disabledResend : bool;
  isVerified : bool;
  isModalOpen : bool;
  isError : bool;
  modalMessage : JS.value;
  isOtpExpired : bool;
  isVerifying : bool;
  isResending : bool
}.

(** The props the handlers read; [hasOnOTPExpired] tells whether the optional
    [onOTPExpired] callback was passed. *)
Record Props : Type := mkProps {
  phoneNumber : string;
  referenceId : string;
  hasOnOTPExpired : bool
}.

#[local] Set Warnings "-register-all".

(** What a handler does besides setting state: [e.preventDefault()],
    [inputsRef.current[idx]?.focus()], the two calls of the auth service,
    [setTimeout(callback, ms)] and the callbacks of the parent.  The
    [console.log] of the resend handler is left out. *)
Inductive Effect : Type :=
| PreventDefault
| Focus (idx : nat)
| CallVerifyOTP (code reference : string)
| CallSendOTP (phone countryCode : string)
| SetTimeout (callback : State -> State * list Effect) (ms : Z)
| OnVerificationSuccess
| OnResendOTP (newReferenceId : JS.value)
| OnOTPExpired.

(** The initial render: [useState(['', '', '', '', ''])], [useState(60)], ... *)
Definition empty_otp : list JS.value := [str ""; str ""; str ""; str ""; str ""].

Definition initial : State :=
  {| otp := empty_otp; timer := 60; disabledResend := true; isVerified := false;
     isModalOpen := false; isError := false; modalMessage := str "";
     isOtpExpired := false; isVerifying := false; isResending := false |}.

(** [otp.every(digit => digit !== '')]. *)
Definition isOtpComplete (s : State) : bool :=
  forallb (fun digit => strict_neq digit (str "")) (otp s).

(** ** Handlers as state transformers with effects *)

Definition Handler : Type := State -> State * list Effect.

Definition skip : Handler := fun s => (s, []).

Definition emit (e : Effect) : Handler := fun s => (s, [e]).

Definition and_then (h k : Handler) : Handler :=
  fun s => let '(s1, e1) := h s in let '(s2, e2) := k s1 in (s2, e1 ++ e2).

Declare Scope handler_scope.
Delimit Scope handler_scope with handler.
Bind Scope handler_scope with Handler.
Notation "h ;; k" := (and_then h k)
  (at level 100, k at level 200, right associativity) : handler_scope.
Local Open Scope handler_scope.

Definition setOtp (v : list JS.value) : Handler := fun s =>
  (mkState v (timer s) (disabledResend s) (isVerified s) (isModalOpen s) (isError s)
           (modalMessage s) (isOtpExpired s) (isVerifying s) (isResending s), []).
Definition setTimer (v : Z) : Handler := fun s =>
  (mkState (otp s) v (disabledResend s) (isVerified s) (isModalOpen s) (isError s)
           (modalMessage s) (isOtpExpired s) (isVerifying s) (isResending s), []).
Definition setDisabledResend (v : bool) : Handler := fun s =>
  (mkState (otp s) (timer s) v (isVerified s) (isModalOpen s) (isError s)
           (modalMessage s) (isOtpExpired s) (isVerifying s) (isResending s), []).
Definition setIsVerified (v : bool) : Handler := fun s =>
  (mkState (otp s) (timer s) (disabledResend s) v (isModalOpen s) (isError s)
           (modalMessage s) (isOtpExpired s) (isVerifying s) (isResending s), []).
Definition setIsModalOpen (v : bool) : Handler := fun s =>
  (mkState (otp s) (timer s) (disabledResend s) (isVerified s) v (isError s)
           (modalMessage s) (isOtpExpired s) (isVerifying s) (isResending s), []).
Definition setIsError (v : bool) : Handler := fun s =>
  (mkState (otp s) (timer s) (disabledResend s) (isVerified s) (isModalOpen s) v
           (modalMessage s) (isOtpExpired s) (isVerifying s) (isResending s), []).
Definition setModalMessage (v : JS.value) : Handler := fun s =>
  (mkState (otp s) (timer s) (disabledResend s) (isVerified s) (isModalOpen s) (isError s)
           v (isOtpExpired s) (isVerifying s) (isResending s), []).
Definition setIsOtpExpired (v : bool) : Handler := fun s =>
  (mkState (otp s) (timer s) (disabledResend s) (isVerified s) (isModalOpen s) (isError s)
           (modalMessage s) v (isVerifying s) (isResending s), []).
Definition setIsVerifying (v : bool) : Handler := fun s =>
  (mkState (otp s) (timer s) (disabledResend s) (isVerified s) (isModalOpen s) (isError s)
           (modalMessage s) (isOtpExpired s) v (isResending s), []).
Definition setIsResending (v : bool) : Handler := fun s =>
  (mkState (otp s) (timer s) (disabledResend s) (isVerified s) (isModalOpen s) (isError s)
           (modalMessage s) (isOtpExpired s) (isVerifying s) v, []).

(** ** The countdown *)

(** The body of the timer [useEffect] (dependencies [timer] and
    [onOTPExpired]): with a positive timer it only (re)installs the
    one-second interval; otherwise it unlocks resend, marks the code expired
    and tells the parent.  React runs it after the render that changed a
    dependency has been committed. *)
Definition timerEffect (p : Props) : Handler := fun s =>
  if (0 <? timer s)%Z then skip s
  else (setDisabledResend false ;; setIsOtpExpired true ;;
        (if hasOnOTPExpired p then emit OnOTPExpired else skip)) s.

(** The interval callback [setTimer(prev => prev - 1)].  The effect installs
    the interval only while the timer is positive and its cleanup clears it
    when the timer changes; the interval of an earlier value is taken not to
    fire again, a second later, before that cleanup has run. *)
Definition tick : Handler := fun s =>
  if (0 <? timer s)%Z then setTimer (timer s - 1) s else skip s.

(** ** Editing the code buffer *)

Definition handleChange (value : string) (idx : nat) : Handler := fun s =>
  if negb (test_optional_digit value) then skip s
  else
    let newOtp := otp s in
    let newOtp := JS.set newOtp idx (str value) in
    (setOtp newOtp ;;
     (if truthy (str value) && (idx <? 4)%nat then emit (Focus (idx + 1)) else skip)) s.

(** The scan [for (let i = idx; i < newOtp.length; i++) if (newOtp[i] !== '')
    lastFilledIndex = i], from [lastFilledIndex = -1]. *)
Definition lastFilledIndex (newOtp : list JS.value) (idx : nat) : Z :=
  for_range idx (Z.of_nat (length newOtp))
    (fun i last => if strict_neq (JS.get newOtp i) (str "") then Z.of_nat i else last)
    (-1)%Z.

(** The loop [for (let i = idx; i < lastFilledIndex; i++) newOtp[i] = newOtp[i + 1]]. *)
Definition shiftLeft (newOtp : list JS.value) (idx : nat) (last : Z) : list JS.value :=
  for_range idx last (fun i a => JS.set a i (JS.get a (i + 1))) newOtp.

Definition handleBackspace (idx : nat) : Handler := fun s =>
  let newOtp := otp s in
  if strict_neq (JS.get newOtp idx) (str "") then
    (emit PreventDefault ;; setOtp (JS.set newOtp idx (str ""))) s
  else
    let last := lastFilledIndex newOtp idx in
    if (Z.of_nat idx <? last)%Z then
      let newOtp := shiftLeft newOtp idx last in
      let newOtp := JS.set newOtp (Z.to_nat last) (str "") in
      (emit PreventDefault ;; setOtp newOtp) s
    else if (0 <? idx)%nat then
      (emit PreventDefault ;; setOtp (JS.set newOtp (idx - 1) (str "")) ;; emit (Focus (idx - 1))) s
    else emit PreventDefault s.

Definition handleDelete (idx : nat) : Handler := fun s =>
  let newOtp := otp s in
  if strict_neq (JS.get newOtp idx) (str "") then
    let last := lastFilledIndex newOtp idx in
    let newOtp := shiftLeft newOtp idx last in
    let newOtp := if (Z.of_nat idx <=? last)%Z then JS.set newOtp (Z.to_nat last) (str "") else newOtp in
    (emit PreventDefault ;; setOtp newOtp) s
  else emit PreventDefault s.

Definition handleKeyDown (key : string) (idx : nat) : Handler :=
  if String.eqb key "Backspace" then handleBackspace idx
  else if String.eqb key "Delete" then handleDelete idx
  else skip.

(** The digits a paste keeps: [pastedData.replace(/\D/g, '').slice(0, 5)]. *)
Definition pasted_digits (pastedData : string) : string :=
  slice0 5 (strip_non_digits pastedData).

Definition handlePaste (pastedData : string) : Handler := fun s =>
  let digits := pasted_digits pastedData in
  if (0 <? String.length digits)%nat then
    let newOtp := otp s in
    let newOtp :=
      for_range 0 (Z.of_nat (Nat.min (String.length digits) 5))
        (fun i a => JS.set a i (char_at digits i)) newOtp in
    let newOtp :=
      for_range (String.length digits) 5 (fun i a => JS.set a i (str "")) newOtp in
    let nextFocusIndex := Nat.min (String.length digits) 4 in
    (emit PreventDefault ;; setOtp newOtp ;; emit (Focus nextFocusIndex)) s
  else emit PreventDefault s.

(** ** Verification *)

(** How an awaited call settles: it resolves with a value or rejects with an
    error whose [message] is a string or missing. *)
Inductive Settled : Type :=
| Resolved (v : JS.value)
| Rejected (message : JS.value).

Definition msg_enter_all : string := "Please enter all 5 digits.".
Definition msg_expired : string := "OTP has expired. Please request a new one.".
Definition msg_verified : string := "OTP Verified Successfully!".
Definition msg_invalid : string := "Invalid OTP. Please try again.".
Definition msg_wrong : string := "Something went wrong. Please try again.".
Definition msg_failed : string := "Failed to verify OTP. Try again later.".
Definition msg_resent : string := "New OTP has been sent to your mobile number.".
Definition msg_no_reference : string := "Failed to get reference ID for new OTP".
Definition msg_resend_failed : string := "Failed to resend OTP".

(** [handleVerify] up to its [await]: the guards, and the call itself. *)
Definition handleVerify (p : Props) : Handler := fun s =>
  if isVerifying s then skip s
  else
    let code := JS.join (otp s) in
    if negb (String.length code =? 5)%nat then
      (setIsError true ;; setModalMessage (str msg_enter_all) ;; setIsModalOpen true) s
    else if isOtpExpired s || negb (truthy (str (referenceId p))) then
      (setIsError true ;; setModalMessage (str msg_expired) ;; setIsModalOpen true) s
    else
      (setIsVerifying true ;; emit (CallVerifyOTP code (referenceId p))) s.

(** The callback given to [setTimeout] on success. *)
Definition successTimeout : Handler :=
  (setIsModalOpen false ;; emit OnVerificationSuccess).

(** [handleVerify] from the [await] on: [Resolved statusCode] is the
    [statusCode] of the response, [Rejected message] the caught error; the
    [finally] block runs last. *)
Definition handleVerifySettled (r : Settled) : Handler :=
  (match r with
   | Resolved statusCode =>
       if strict_eq statusCode (str "1000") then
         (setIsVerified true ;; setIsError false ;; setModalMessage (str msg_verified) ;;
          setIsModalOpen true ;; emit (SetTimeout successTimeout 2000))
       else if strict_eq statusCode (str "1001") then
         (setIsError true ;; setModalMessage (str msg_invalid) ;; setIsModalOpen true)
       else if strict_eq statusCode (str "1002") || strict_eq statusCode (str "1003") then
         (setIsOtpExpired true ;; setIsError true ;; setModalMessage (str msg_expired) ;;
          setIsModalOpen true)
       else
         (setIsError true ;; setModalMessage (str msg_wrong) ;; setIsModalOpen true)
   | Rejected message =>
       if truthy message && includes (toLowerCase (to_string message)) "expired" then
         (setIsOtpExpired true ;; setIsError true ;; setModalMessage (str msg_expired) ;;
          setIsModalOpen true)
       else
         (setIsError true ;; setModalMessage (str msg_failed) ;; setIsModalOpen true)
   end) ;;
  setIsVerifying false.

(** ** Resend *)

(** [handleResendOTP] up to its [await]. *)
Definition handleResendOTP (p : Props) : Handler := fun s =>
  if disabledResend s || isResending s then skip s
  else
    let countryCode :=
      JS.substring (phoneNumber p) 0 (Z.of_nat (String.length (phoneNumber p)) - 10) in
    let phone := JS.substring_from (phoneNumber p) (Z.of_nat (String.length countryCode)) in
    (setIsResending true ;; emit (CallSendOTP phone countryCode)) s.

(** The [catch] block of [handleResendOTP]. *)
Definition resendCatch (message : JS.value) : Handler :=
  (setIsError true ;;
   setModalMessage (if truthy message then message else str msg_resend_failed) ;;
   setIsModalOpen true).

(** [handleResendOTP] from the [await] on: [Resolved referenceId] is
    [res.referenceId]. *)
Definition handleResendSettled (r : Settled) : Handler :=
  (match r with
   | Resolved newReferenceId =>
       if truthy newReferenceId then
         (emit (OnResendOTP newReferenceId) ;;
          setTimer 60 ;; setDisabledResend true ;; setIsOtpExpired false ;;
          setOtp empty_otp ;;
          setIsVerified false ;; setIsError false ;; setModalMessage (str msg_resent) ;;
          setIsModalOpen true ;;
          emit (Focus 0))
       else resendCatch (str msg_no_reference)
   | Rejected message => resendCatch message
   end) ;;
  setIsResending false.

(** ** The widget as a transition system *)

(** What can happen to a mounted widget.  [TimerEffect] is a run of the
    timer [useEffect]: after the commit of a render in which [timer] changed,
    or in which the parent passed another [onOTPExpired]. *)
Inductive Event : Type :=
| Tick
| Change (value : string) (idx : nat)
| KeyDown (key : string) (idx : nat)
| Paste (pastedData : string)
| ClickVerify
| VerifySettled (r : Settled)
| SuccessTimeout
| ClickResend
| ResendSettled (r : Settled)
| CloseModal
| TimerEffect.

(** The handler an event runs. *)
Definition dispatch (p : Props) (e : Event) : Handler :=
  match e with
  | Tick => tick
  | Change value idx => handleChange value idx
  | KeyDown key idx => handleKeyDown key idx
  | Paste pastedData => handlePaste pastedData
  | ClickVerify => handleVerify p
  | VerifySettled r => handleVerifySettled r
  | SuccessTimeout => successTimeout
  | ClickResend => handleResendOTP p
  | ResendSettled r => handleResendSettled r
  | CloseModal => setIsModalOpen false
  | TimerEffect => timerEffect p
  end.

(** One event is one commit: its handler runs on the rendered state, and
    the state it leaves is rendered and committed.  The timer effect is not
    part of the commit of the tick that changed [timer]: it is an event of
    its own, so that the render committed by the last tick (countdown at
    zero, code not yet marked expired, resend still locked) is a state of
    the widget, in which every handler can run. *)
Definition step (p : Props) (e : Event) : Handler := dispatch p e.

(** The inputs are rendered by [otp.map((digit, idx) => ...)]: an edit event
    carries the index of an existing slot. *)
Definition rendered (s : State) (e : Event) : Prop :=
  match e with
  | Change _ idx | KeyDown _ idx => idx < length (otp s)
  | _ => True
  end.

(** The states a widget can be in, for any behaviour of the user, of the
    server and of the parent (the props may differ at each step).  The
    [disabled] attributes of the inputs and buttons are not taken into
    account: every handler may run in every state, a call may settle at any
    time, and the timer effect may run late or once more, which only adds
    states. *)
Inductive reachable : State -> Prop :=
| reachable_initial : reachable initial
| reachable_step p e s : reachable s -> rendered s e -> reachable (step p e s).1.

#[global] Instance rendered_dec (s : State) (e : Event) : Decision (rendered s e).
Proof. destruct e; cbn; apply _. Defined.

(** A run of events from a state, the props fixed. *)
Definition run (p : Props) (es : list Event) (s : State) : State :=
  foldl (fun acc e => (step p e acc).1) s es.

(** Every event of the run is one the state it meets can render. *)
Fixpoint run_rendered (p : Props) (es : list Event) (s : State) : bool :=
  match es with
  | [] => true
  | e :: es' => bool_decide (rendered s e) && run_rendered p es' (step p e s).1
  end.

(** ** Vocabulary of the properties *)

(** A slot is the empty string or one decimal digit. *)
Definition slot_ok (v : JS.value) : Prop :=
  v = str "" \/ exists c, is_digit c = true /\ v = str (String c EmptyString).

(** The invariant of the code buffer: 5 slots, each empty or one digit. *)
Definition otp_wf (a : list JS.value) : Prop :=
  length a = 5 /\ Forall slot_ok a.

(** Some slot is empty. *)
Definition has_empty_slot (a : list JS.value) : Prop :=
  exists i, a !! i = Some (str "").

(** The list of effects holds no call of [verifyOTP]. *)
Definition no_verify_call (es : list Effect) : Prop :=
  forall code reference, ~ In (CallVerifyOTP code reference) es.

(** The state [s] with its buffer replaced. *)
Definition with_otp (a : list JS.value) (s : State) : State := (setOtp a s).1.

(** The slot a pasted digit is stored as. *)
Definition digit_slot (c : ascii) : JS.value := str (String c EmptyString).

(** A slot that holds something else than the empty string. *)
Definition filled (v : JS.value) : Prop := v <> str "".

(** The buffer with slot [idx] taken out, the slots after it moved one
    place to the left and an empty slot appended at the end. *)
Definition shifted (a : list JS.value) (idx : nat) : list JS.value :=
  delete idx a ++ [str ""].

(** The events that edit the buffer. *)
Definition is_edit (e : Event) : bool :=
  match e with
  | Change _ _ | KeyDown _ _ | Paste _ => true
  | _ => false
  end.

(** The resend call resolved with a usable reference. *)
Definition resend_succeeds (e : Event) : bool :=
  match e with
  | ResendSettled (Resolved newReferenceId) => truthy newReferenceId
  | _ => false
  end.

(** The locked sub-state: countdown at zero, code expired, resend unlocked. *)
Definition locked (s : State) : Prop :=
  timer s = 0%Z /\ isOtpExpired s = true /\ disabledResend s = false.

(** The countdown stays within 0..60, and resend is unlocked in the locked
    sub-state only. *)
Definition countdown_inv (s : State) : Prop :=
  (0 <= timer s <= 60)%Z /\
  (disabledResend s = false -> timer s = 0%Z /\ isOtpExpired s = true).

(** ** Concrete inputs *)

(** Props and states used to run the handlers on concrete inputs. *)
Definition demo_props : Props :=
  {| phoneNumber := "+94771234567"; referenceId := "ref-1"; hasOnOTPExpired := true |}.

(** The buffer after typing 1, 2, 3, 4, 5. *)
Definition otp_12345 : list JS.value := [str "1"; str "2"; str "3"; str "4"; str "5"].

Definition typing_12345 : list Event :=
  [Change "1" 0; Change "2" 1; Change "3" 2; Change "4" 3; Change "5" 4].

(** The widget after the user typed 1, 2, 3, 4, 5. *)
Definition typed_12345 : State := run demo_props typing_12345 initial.

(** The widget after the user typed 2 into the second slot only. *)
Definition typed_second : State := run demo_props [Change "2" 1] initial.


(** The widget as committed by the sixtieth tick, the code typed before:
    the timer effect of that render has not run yet. *)
Definition last_tick : State :=
  run demo_props (typing_12345 ++ repeat Tick 60) initial.

(** The widget after the countdown ran out and the timer effect ran. *)
Definition counted_down : State :=
  run demo_props (repeat Tick 60 ++ [TimerEffect]) initial.

(** ** What the widget renders from its state *)

(** [String(n)] for an integer [n]. *)
Definition string_of_Z (n : Z) : string :=
  DecimalString.NilZero.string_of_int (Z.to_int n).

(** [s.padStart(n, '0')]. *)
Definition padStart0 (n : nat) (s : string) : string :=
  String.append (string_of_list_ascii (replicate (n - String.length s) "0"%char)) s.

(** [`${Math.floor(timer / 60)}:${String(timer % 60).padStart(2, '0')}`]. *)
Definition timerText (s : State) : string :=
  String.append (string_of_Z (timer s / 60))
    (String.append ":" (padStart0 2 (string_of_Z (Z.rem (timer s) 60)))).

(** The [disabled] attribute of the Verify button. *)
Definition verifyDisabled (s : State) : bool :=
  isVerifying s || isOtpExpired s || negb (isOtpComplete s).

(** The text of the Verify button. *)
Definition verifyLabel (s : State) : string :=
  if isVerifying s then "Verifying..."
  else if isOtpExpired s then "OTP Expired"
  else if negb (isOtpComplete s) then "Enter 5 digits"
  else "Verify".

(** The [disabled] attribute of the resend button. *)
Definition resendDisabled (s : State) : bool :=
  disabledResend s || isResending s.

(** The text of the resend button. *)
Definition resendLabel (s : State) : string :=
  if isResending s then "Sending..."
  else if disabledResend s then String.append "Resend in " (timerText s)
  else "Resend OTP".

(** The character of a decimal digit. *)
Definition digit_char (n : Z) : ascii := ascii_of_nat (48 + Z.to_nat n).

(** The text m:ss of a number of seconds below ten minutes. *)
Definition minutes_seconds (t : Z) : string :=
  string_of_list_ascii
    [digit_char (t / 60); ":"%char; digit_char (t mod 60 / 10); digit_char (t mod 10)].

(** The digits entered so far, in slot order. *)
#[global] Instance filled_dec (v : JS.value) : Decision (filled v).
Proof. unfold filled. apply _. Defined.

Definition entered (a : list JS.value) : list JS.value := filter filled a.

(** * Strings of the sign-in page

    A JavaScript string is a sequence of UTF-16 code units; [trim] and the
    class [\s] of a pattern without the [u] flag look at code units. *)

Module Utf16.

(** A code unit is a number below 65536; nothing below depends on the
    bound, and what is proved of every list of numbers holds of every
    string. *)
Definition code_unit : Type := N.

Abbreviation text := (list code_unit).

(** The code unit of a character below 256, and the string of a literal
    made of such characters. *)
Definition unit_of (c : ascii) : code_unit := N_of_ascii c.

Definition of_ascii (s : string) : text := map unit_of (list_ascii_of_string s).

(** [!s] for a string. *)
Definition is_empty (s : text) : bool :=
  match s with
  | [] => true
  | _ :: _ => false
  end.

End Utf16.

Import Utf16.

(** * Regular expressions

    The anchored patterns of the forms ([/^...$/.test(s)]) use character
    classes, concatenation and [+] only; such a test is membership of the
    whole string in a regular language, decided here with derivatives. *)

Module Regex.

Inductive re : Type :=
| Void
| Eps
| Class (f : code_unit -> bool)
| Seq (r1 r2 : re)
| Alt (r1 r2 : re)
| Star (r : re).

(** [r+]. *)
Definition Plus (r : re) : re := Seq r (Star r).

(** A literal character. *)
Definition Chr (c : code_unit) : re := Class (N.eqb c).

Fixpoint nullable (r : re) : bool :=
  match r with
  | Void => false
  | Eps => true
  | Class _ => false
  | Seq r1 r2 => nullable r1 && nullable r2
  | Alt r1 r2 => nullable r1 || nullable r2
  | Star _ => true
  end.

Fixpoint deriv (c : code_unit) (r : re) : re :=
  match r with
  | Void => Void
  | Eps => Void
  | Class f => if f c then Eps else Void
  | Seq r1 r2 =>
      if nullable r1 then Alt (Seq (deriv c r1) r2) (deriv c r2)
      else Seq (deriv c r1) r2
  | Alt r1 r2 => Alt (deriv c r1) (deriv c r2)
  | Star r1 => Seq (deriv c r1) (Star r1)
  end.

Fixpoint matches (r : re) (s : text) : bool :=
  match s with
  | [] => nullable r
  | c :: t => matches (deriv c r) t
  end.

(** [/^r$/.test(s)]. *)
Definition test (r : re) (s : text) : bool := matches r s.

(** The strings a pattern denotes. *)
Inductive lang : re -> text -> Prop :=
| lang_eps : lang Eps []
| lang_class f c : f c = true -> lang (Class f) [c]
| lang_seq r1 r2 s1 s2 : lang r1 s1 -> lang r2 s2 -> lang (Seq r1 r2) (s1 ++ s2)
| lang_alt_l r1 r2 s : lang r1 s -> lang (Alt r1 r2) s
| lang_alt_r r1 r2 s : lang r2 s -> lang (Alt r1 r2) s
| lang_star_nil r : lang (Star r) []
| lang_star_app r s1 s2 : lang r s1 -> lang (Star r) s2 -> lang (Star r) (s1 ++ s2).

End Regex.

(** * The sign-in page

    [Page] of src/app/signin/page.tsx (the first document of that file): the
    validation of the form, the login call and what follows it, and the
    remembered credentials in [localStorage].  The email and the password
    can be any string: they are sequences of UTF-16 code units. *)

Module SignIn.

(** [\s], and what [trim] strips: the white space and the line terminators
    of the language.  Tab, line feed, vertical tab, form feed, carriage
    return, space, no-break space, U+1680, U+2000 to U+200A, U+2028, U+2029,
    U+202F, U+205F, U+3000 and U+FEFF. *)
Definition is_whitespace (c : code_unit) : bool :=
  match c with
  | 0x9 | 0xA | 0xB | 0xC | 0xD | 0x20 | 0xA0 | 0x1680
  | 0x2028 | 0x2029 | 0x202F | 0x205F | 0x3000 | 0xFEFF => true
  | _ => (0x2000 <=? c) && (c <=? 0x200A)
  end%N.

Fixpoint trimStart (s : text) : text :=
  match s with
  | [] => []
  | c :: t => if is_whitespace c then trimStart t else s
  end.

Fixpoint trimEnd (s : text) : text :=
  match s with
  | [] => []
  | c :: t =>
      match trimEnd t with
      | [] => if is_whitespace c then [] else [c]
      | t' => c :: t'
      end
  end.

(** [s.trim()]. *)
Definition trim (s : text) : text := trimEnd (trimStart s).

(** The code units of "@" and of ".". *)
Definition at_sign : code_unit := unit_of "@".
Definition dot : code_unit := unit_of ".".

(** [[^\s@]]. *)
Definition local_char (c : code_unit) : bool :=
  negb (is_whitespace c || N.eqb c at_sign).

(** [/^[^\s@]+@[^\s@]+\.[^\s@]+$/]. *)
Definition email_re : Regex.re :=
  Regex.Seq (Regex.Plus (Regex.Class local_char))
    (Regex.Seq (Regex.Chr at_sign)
       (Regex.Seq (Regex.Plus (Regex.Class local_char))
          (Regex.Seq (Regex.Chr dot) (Regex.Plus (Regex.Class local_char))))).

(** The [useState] cells of the page (the unused [error] cell left out). *)
Record State : Type := mkState {
  userType : string;
  email : text;
  password : text;
  isLoading : bool;
  showPassword : bool;
  rememberMe : bool;
  showSuccessPopup : bool;
  showErrorPopup : bool;
  emailError : string;
  passwordError : string
}.

(** The page and the browser's [localStorage]. *)
Record World : Type := mkWorld {
  page : State;
  storage : gmap string text
}.

(** What [login] resolves with: [data.token] and [data.userData], the
    latter with its [buyerType]. *)
Record UserData : Type := mkUserData {
  buyerType : JS.value
}.

Record LoginData : Type := mkLoginData {
  token : JS.value;
  userData : option UserData
}.

Inductive LoginSettled : Type :=
| LoginResolved (data : LoginData)
| LoginRejected (message : JS.value).

Inductive Effect : Type :=
| PreventDefault
| CallLogin (email password : text) (buyerType : string)
| DispatchSetCredentials (token : JS.value) (user : UserData)
| RouterPush (path : string).

Definition initial : State :=
  {| userType := "Retail"; email := []; password := []; isLoading := false;
     showPassword := false; rememberMe := false; showSuccessPopup := false;
     showErrorPopup := false; emailError := ""; passwordError := "" |}.

Definition Handler : Type := World -> World * list Effect.

Definition skip : Handler := fun w => (w, []).
Definition emit (e : Effect) : Handler := fun w => (w, [e]).
Definition and_then (h k : Handler) : Handler :=
  fun w => let '(w1, e1) := h w in let '(w2, e2) := k w1 in (w2, e1 ++ e2).

Definition on_page (f : State -> State) : Handler :=
  fun w => (mkWorld (f (page w)) (storage w), []).

Definition setEmail (v : text) : Handler := on_page (fun s =>
  mkState (userType s) v (password s) (isLoading s) (showPassword s) (rememberMe s)
          (showSuccessPopup s) (showErrorPopup s) (emailError s) (passwordError s)).
Definition setPassword (v : text) : Handler := on_page (fun s =>
  mkState (userType s) (email s) v (isLoading s) (showPassword s) (rememberMe s)
          (showSuccessPopup s) (showErrorPopup s) (emailError s) (passwordError s)).
Definition setIsLoading (v : bool) : Handler := on_page (fun s =>
  mkState (userType s) (email s) (password s) v (showPassword s) (rememberMe s)
          (showSuccessPopup s) (showErrorPopup s) (emailError s) (passwordError s)).
Definition setRememberMe (v : bool) : Handler := on_page (fun s =>
  mkState (userType s) (email s) (password s) (isLoading s) (showPassword s) v
          (showSuccessPopup s) (showErrorPopup s) (emailError s) (passwordError s)).
Definition setShowSuccessPopup (v : bool) : Handler := on_page (fun s =>
  mkState (userType s) (email s) (password s) (isLoading s) (showPassword s) (rememberMe s)
          v (showErrorPopup s) (emailError s) (passwordError s)).
Definition setShowErrorPopup (v : bool) : Handler := on_page (fun s =>
  mkState (userType s) (email s) (password s) (isLoading s) (showPassword s) (rememberMe s)
          (showSuccessPopup s) v (emailError s) (passwordError s)).
Definition setEmailError (v : string) : Handler := on_page (fun s =>
  mkState (userType s) (email s) (password s) (isLoading s) (showPassword s) (rememberMe s)
          (showSuccessPopup s) (showErrorPopup s) v (passwordError s)).
Definition setPasswordError (v : string) : Handler := on_page (fun s =>
  mkState (userType s) (email s) (password s) (isLoading s) (showPassword s) (rememberMe s)
          (showSuccessPopup s) (showErrorPopup s) (emailError s) v).

(** [localStorage.setItem(k, v)] and [localStorage.removeItem(k)]. *)
Definition setItem (k : string) (v : text) : Handler :=
  fun w => (mkWorld (page w) (<[k := v]> (storage w)), []).
Definition removeItem (k : string) : Handler :=
  fun w => (mkWorld (page w) (delete k (storage w)), []).

(** A string read from storage is truthy when present and non-empty. *)
Definition truthy_item (v : option text) : bool :=
  match v with
  | Some s => negb (is_empty s)
  | None => false
  end.

Declare Scope signin_scope.
Delimit Scope signin_scope with signin.
Bind Scope signin_scope with Handler.
Notation "h ;; k" := (and_then h k)
  (at level 100, k at level 200, right associativity) : signin_scope.
Local Open Scope signin_scope.

Definition msg_email_required : string := "Email is required".
Definition msg_email_invalid : string := "Enter a valid email address".
Definition msg_password_required : string := "Password is required".
Definition msg_incorrect_password : string := "Incorrect password. Please try again!".
Definition msg_incorrect_email : string := "Incorrect email. Please try again!".
Definition msg_user_not_found : string := "User not found. Please check your credentials!".

(** The effect run on mount: the remembered credentials are loaded when
    both are stored and non-empty. *)
Definition loadRemembered : Handler := fun w =>
  let savedEmail := storage w !! "rememberedEmail" in
  let savedPassword := storage w !! "rememberedPassword" in
  if truthy_item savedEmail && truthy_item savedPassword then
    (setEmail (default [] savedEmail) ;; setPassword (default [] savedPassword) ;;
     setRememberMe true) w
  else skip w.

(** The [onChange] handlers of the two inputs and of the checkbox. *)
Definition changeEmail (value : text) : Handler :=
  (setEmail value ;; setEmailError "").
Definition changePassword (value : text) : Handler :=
  (setPassword value ;; setPasswordError "").
Definition changeRememberMe (checked : bool) : Handler := setRememberMe checked.

(** The three tests of [handleLogin]. *)
Definition email_missing (s : State) : bool := is_empty (trim (email s)).
Definition email_malformed (s : State) : bool := negb (Regex.test email_re (trim (email s))).
Definition password_missing (s : State) : bool := is_empty (trim (password s)).

(** [handleLogin] up to its [await]. *)
Definition handleLogin : Handler := fun w =>
  let s := page w in
  let validateEmail : Handler * bool :=
    if email_missing s then (setEmailError msg_email_required, false)
    else if email_malformed s then (setEmailError msg_email_invalid, false)
    else (setEmailError "", true) in
  let validatePassword : Handler * bool :=
    if password_missing s then (setPasswordError msg_password_required, false)
    else (setPasswordError "", true) in
  let valid := validateEmail.2 && validatePassword.2 in
  (emit PreventDefault ;; validateEmail.1 ;; validatePassword.1 ;;
   (if negb valid then skip
    else (setIsLoading true ;; emit (CallLogin (email s) (password s) (userType s))))) w.

(** The [catch] block of [handleLogin]. *)
Definition loginCatch (message : JS.value) : Handler :=
  (setShowErrorPopup true ;;
   (if strict_eq message (str "Wrong password.") then
      (setPasswordError msg_incorrect_password ;; setEmailError "")
    else if strict_eq message (str "User not found.")
            || strict_eq message (str "Invalid buyer type.") then
      (setPasswordError "" ;; setEmailError "")
    else
      (setEmailError "" ;; setPasswordError ""))).

(** The message of the [TypeError] raised by [data.userData.cart] when the
    response has no [userData] (the text is the engine's; it is none of the
    messages the [catch] block tells apart). *)
Definition msg_type_error : string :=
  "Cannot read properties of undefined (reading 'cart')".

(** [handleLogin] from the [await] on.  [s0] is the state the handler was
    created with: its [email], [password] and [rememberMe] are the ones the
    code reads after the call.  [localStorage] and [dispatch] are taken not
    to throw. *)
Definition handleLoginSettled (s0 : State) (r : LoginSettled) : Handler :=
  (match r with
   | LoginResolved data =>
       (setShowSuccessPopup true ;;
        (if truthy (token data) then
           match userData data with
           | None => loginCatch (str msg_type_error)
           | Some user =>
               (emit (DispatchSetCredentials (token data) user) ;;
                (if rememberMe s0 then
                   (setItem "rememberedEmail" (email s0) ;;
                    setItem "rememberedPassword" (password s0))
                 else
                   (removeItem "rememberedEmail" ;; removeItem "rememberedPassword")) ;;
                (if strict_eq (buyerType user) (str "Retail") then emit (RouterPush "/")
                 else if strict_eq (buyerType user) (str "Wholesale") then
                   emit (RouterPush "/wholesale/home")
                 else skip))
           end
         else skip))
   | LoginRejected message => loginCatch message
   end) ;;
  setIsLoading false.

(** The [description] of the error popup. *)
Definition errorDescription (s : State) : string :=
  if negb (String.eqb (passwordError s) "") then msg_incorrect_password
  else if negb (String.eqb (emailError s) "") then msg_incorrect_email
  else msg_user_not_found.

(** A page mounted on a given storage. *)
Definition mounted (st : gmap string text) : World :=
  (loadRemembered (mkWorld initial st)).1.

(** A string of whitespace only (the empty string included). *)
Definition blank (s : text) : Prop :=
  Forall (fun c => is_whitespace c = true) s.

(** A string of the form a@b.c with a, b and c non-empty and free of
    whitespace and of "@". *)
Definition email_shaped (t : text) : Prop :=
  exists a b c,
    t = a ++ at_sign :: b ++ dot :: c /\
    a <> [] /\ b <> [] /\ c <> [] /\
    Forall (fun x => local_char x = true) (a ++ b ++ c).

End SignIn.

(** * The personal details form

    [PersonalDetailsForm] and [CustomDropdown] of src/app/signin/page.tsx
    (the third document of that file).  The three calls of a submission are
    answered by given results; the validation schema belongs to a library
    and is not modelled. *)

Module Profile.

(** How a call ends: with a value, or with an error and its [message]. *)
Inductive Result (A : Type) : Type :=
| Ok (a : A)
| Err (message : JS.value).
Arguments Ok {A} a.
Arguments Err {A} message.

(** An object of form values ([FormData]): what the form hands to
    [onSubmit], and what the component hands to [useForm] and to [reset];
    the passwords may be [undefined]. *)
Record FormValues : Type := mkForm {
  title : string;
  firstName : string;
  lastName : string;
  email : string;
  countryCode : string;
  phoneNumber : string;
  currentPassword : JS.value;
  newPassword : JS.value;
  confirmPassword : JS.value
}.

(** What [fetchProfile] resolves with. *)
Record ProfileData : Type := mkProfile {
  p_title : JS.value;
  p_firstName : JS.value;
  p_lastName : JS.value;
  p_email : JS.value;
  p_phoneCode : JS.value;
  p_phoneNumber : JS.value;
  p_image : JS.value;
  p_profileImageURL : JS.value
}.

(** A chosen file: its size in bytes and the object URL the browser makes
    for it. *)
Record File : Type := mkFile {
  size : Z;
  objectURL : string
}.

(** The [useState] cells of the component, and [resetValues]: the values
    the component last handed to the form, which are the [defaultValues] of
    [useForm] at first and then the argument of the last call of [reset].
    The inputs themselves are kept by react-hook-form, which src/ does not
    hold: what the form then shows and reports for these values (for a
    password handed over as [undefined], say) is not part of this state. *)
Record State : Type := mkState {
  resetValues : FormValues;
  profilePic : option File;
  previewURL : option string;
  showSuccessPopup : bool;
  showErrorPopup : bool;
  showCancelSuccessPopup : bool;
  errorMessage : string;
  successMessage : string;
  isLoading : bool
}.

(** The [data] object given to [updateProfile]. *)
Record ProfilePayload : Type := mkPayload {
  u_title : string;
  u_firstName : string;
  u_lastName : string;
  u_email : string;
  u_phoneCode : string;
  u_phoneNumber : string
}.

Inductive Effect : Type :=
| CallFetchProfile (token : string)
| CallUpdateProfile (token : string) (data : ProfilePayload) (pic : option File)
| CallUpdatePassword (token : string) (current new confirm : string)
| ClearFileInput
| SetTimeout (callback : State -> State * list Effect) (ms : Z).

Definition Handler : Type := State -> State * list Effect.

Definition skip : Handler := fun s => (s, []).
Definition emit (e : Effect) : Handler := fun s => (s, [e]).
Definition and_then (h k : Handler) : Handler :=
  fun s => let '(s1, e1) := h s in let '(s2, e2) := k s1 in (s2, e1 ++ e2).

Declare Scope profile_scope.
Delimit Scope profile_scope with profile.
Bind Scope profile_scope with Handler.
Notation "h ;; k" := (and_then h k)
  (at level 100, k at level 200, right associativity) : profile_scope.
Local Open Scope profile_scope.

(** [reset(v)]: the call is recorded, with its argument. *)
Definition reset (v : FormValues) : Handler := fun s =>
  (mkState v (profilePic s) (previewURL s) (showSuccessPopup s) (showErrorPopup s)
           (showCancelSuccessPopup s) (errorMessage s) (successMessage s) (isLoading s), []).
Definition setProfilePic (v : option File) : Handler := fun s =>
  (mkState (resetValues s) v (previewURL s) (showSuccessPopup s) (showErrorPopup s)
           (showCancelSuccessPopup s) (errorMessage s) (successMessage s) (isLoading s), []).
Definition setPreviewURL (v : option string) : Handler := fun s =>
  (mkState (resetValues s) (profilePic s) v (showSuccessPopup s) (showErrorPopup s)
           (showCancelSuccessPopup s) (errorMessage s) (successMessage s) (isLoading s), []).
Definition setShowSuccessPopup (v : bool) : Handler := fun s =>
  (mkState (resetValues s) (profilePic s) (previewURL s) v (showErrorPopup s)
           (showCancelSuccessPopup s) (errorMessage s) (successMessage s) (isLoading s), []).
Definition setShowErrorPopup (v : bool) : Handler := fun s =>
  (mkState (resetValues s) (profilePic s) (previewURL s) (showSuccessPopup s) v
           (showCancelSuccessPopup s) (errorMessage s) (successMessage s) (isLoading s), []).
Definition setShowCancelSuccessPopup (v : bool) : Handler := fun s =>
  (mkState (resetValues s) (profilePic s) (previewURL s) (showSuccessPopup s) (showErrorPopup s)
           v (errorMessage s) (successMessage s) (isLoading s), []).
Definition setErrorMessage (v : string) : Handler := fun s =>
  (mkState (resetValues s) (profilePic s) (previewURL s) (showSuccessPopup s) (showErrorPopup s)
           (showCancelSuccessPopup s) v (successMessage s) (isLoading s), []).
Definition setSuccessMessage (v : string) : Handler := fun s =>
  (mkState (resetValues s) (profilePic s) (previewURL s) (showSuccessPopup s) (showErrorPopup s)
           (showCancelSuccessPopup s) (errorMessage s) v (isLoading s), []).
Definition setIsLoading (v : bool) : Handler := fun s =>
  (mkState (resetValues s) (profilePic s) (previewURL s) (showSuccessPopup s) (showErrorPopup s)
           (showCancelSuccessPopup s) (errorMessage s) (successMessage s) v, []).

(** [v || fallback] for a string-valued [v]. *)
Definition or_else (v : JS.value) (fallback : string) : string :=
  if truthy v then to_string v else fallback.

(** The [defaultValues] of [useForm], which are also the argument of the
    [reset] of [handleCancel]; and the argument of the [reset] that follows
    a [fetchProfile]. *)
Definition blank_form : FormValues :=
  mkForm "" "" "" "" "" "" undefined undefined undefined.

Definition form_of_profile (d : ProfileData) : FormValues :=
  mkForm (or_else (p_title d) "") (or_else (p_firstName d) "") (or_else (p_lastName d) "")
         (or_else (p_email d) "") (or_else (p_phoneCode d) "") (or_else (p_phoneNumber d) "")
         undefined undefined undefined.

Definition initial : State :=
  mkState blank_form None None false false false "" "" false.

(** [a || b || null] for two URLs. *)
Definition first_url (a b : JS.value) : option string :=
  if truthy a then Some (to_string a)
  else if truthy b then Some (to_string b)
  else None.

(** [loadProfile], run on mount, with the result of its call. *)
Definition loadProfile (token : JS.value) (rFetch : Result ProfileData) : Handler :=
  if negb (truthy token) then skip
  else
    (setIsLoading true ;;
     emit (CallFetchProfile (to_string token)) ;;
     (match rFetch with
      | Ok data =>
          (reset (form_of_profile data) ;;
           setPreviewURL (first_url (p_image data) (p_profileImageURL data)))
      | Err message =>
          (setErrorMessage (or_else message "Failed to fetch profile") ;;
           setShowErrorPopup true ;; setShowSuccessPopup false)
      end) ;;
     setIsLoading false).

(** [(size / (1024 * 1024)).toFixed(2)]: the quotient is exact in floating
    point (a division by a power of two), and [toFixed] rounds it to the
    nearest hundredth, halves upwards. *)
Definition megabytes_text (size : Z) : string :=
  let n := ((100 * size + 524288) / 1048576)%Z in
  String.append (string_of_Z (n / 100))
    (String.append "." (padStart0 2 (string_of_Z (n mod 100)))).

Definition maxSizeInBytes : Z := 15 * 1024 * 1024.

Definition too_large_message (size : Z) : string :=
  String.append "The image you uploaded has a size of "
    (String.append (megabytes_text size)
       "MB, which is larger than 15MB. Please re-upload an image under the allowed criteria.").

(** [handleFileChange]; [file] is [e.target.files?.[0]]. *)
Definition handleFileChange (file : option File) : Handler :=
  match file with
  | None => skip
  | Some f =>
      if (maxSizeInBytes <? size f)%Z then
        (setErrorMessage (too_large_message (size f)) ;;
         setShowErrorPopup true ;; setShowSuccessPopup false ;;
         emit ClearFileInput)
      else
        (setProfilePic (Some f) ;; setPreviewURL (Some (objectURL f)))
  end.

Definition msg_not_authenticated : string :=
  "You are not authenticated. Please login first.".
Definition msg_profile_updated : string := "Profile updated successfully!".
Definition msg_password_updated : string := "Password updated successfully!".
Definition msg_password_failed : string := "Failed to update password.".
Definition msg_email_in_use : string :=
  "This email is already in use. Please use a different email.".
Definition msg_phone_in_use : string :=
  "This phone number is already in use. Please use a different phone number.".
Definition msg_something_wrong : string := "Something went wrong".

Definition payload_of (data : FormValues) : ProfilePayload :=
  mkPayload (title data) (firstName data) (lastName data) (email data)
            (countryCode data) (phoneNumber data).

(** The outer [catch] block of [onSubmit]. *)
Definition submitCatch (message : JS.value) : Handler :=
  ((if strict_eq message (str "Email already exists") then setErrorMessage msg_email_in_use
    else if strict_eq message (str "Phone number already exists") then
      setErrorMessage msg_phone_in_use
    else setErrorMessage (or_else message msg_something_wrong)) ;;
   setShowErrorPopup true ;; setShowSuccessPopup false).

(** The callback of the 5 s timer of a successful submission. *)
Definition hideSuccess : Handler := setShowSuccessPopup false.

(** [successMessages.join(' ')]. *)
Fixpoint join_space (l : list string) : string :=
  match l with
  | [] => ""
  | [x] => x
  | x :: t => String.append x (String.append " " (join_space t))
  end.

(** [onSubmit] from the second call on, once the password step is over. *)
Definition finishSubmit (token : string) (successMessages : list string)
    (rFetch : Result ProfileData) : Handler :=
  (emit (CallFetchProfile token) ;;
   match rFetch with
   | Err message => submitCatch message
   | Ok updatedData =>
       (reset (form_of_profile updatedData) ;;
        (if truthy (p_profileImageURL updatedData) || truthy (p_image updatedData) then
           setPreviewURL (first_url (p_profileImageURL updatedData) (p_image updatedData))
         else skip) ;;
        setSuccessMessage (join_space successMessages) ;;
        setShowSuccessPopup true ;;
        emit (SetTimeout hideSuccess 5000))
   end).

(** [onSubmit], with the results of [updateProfile], of [updatePassword]
    (its [message]) and of [fetchProfile]; a result is looked at only if its
    call is made. *)
Definition onSubmit (token : JS.value) (data : FormValues)
    (rUpdate : Result unit) (rPassword : Result JS.value) (rFetch : Result ProfileData)
    : Handler := fun s0 =>
  (setIsLoading true ;;
   (if negb (truthy token) then
      (setErrorMessage msg_not_authenticated ;; setShowErrorPopup true ;;
       setShowSuccessPopup false ;; setIsLoading false)
    else
      ((setShowSuccessPopup false ;; setShowErrorPopup false ;;
        setErrorMessage "" ;; setSuccessMessage "" ;;
        emit (CallUpdateProfile (to_string token) (payload_of data) (profilePic s0)) ;;
        match rUpdate with
        | Err message => submitCatch message
        | Ok _ =>
            if truthy (newPassword data) && truthy (currentPassword data)
               && truthy (confirmPassword data) then
              (emit (CallUpdatePassword (to_string token) (to_string (currentPassword data))
                       (to_string (newPassword data)) (to_string (confirmPassword data))) ;;
               match rPassword with
               | Err message => submitCatch (str (or_else message msg_password_failed))
               | Ok message =>
                   finishSubmit (to_string token)
                     [msg_profile_updated; or_else message msg_password_updated] rFetch
               end)
            else finishSubmit (to_string token) [msg_profile_updated] rFetch
        end) ;;
       setIsLoading false))) s0.

(** The two timers of [handleCancel]. *)
Definition hideCancelPopup : Handler := setShowCancelSuccessPopup false.
Definition afterCancel : Handler :=
  (setIsLoading false ;; setShowCancelSuccessPopup true ;;
   emit (SetTimeout hideCancelPopup 3000)).

Definition handleCancel : Handler :=
  (setIsLoading true ;; reset blank_form ;; setProfilePic None ;; setPreviewURL None ;;
   emit (SetTimeout afterCancel 500)).

(** The text of the trigger of a [CustomDropdown]: [value ?
    options.find((opt) => opt.value === value)?.label || placeholder :
    placeholder], an option being a pair of a value and a label. *)
Definition triggerText (value : string) (options : list (string * string))
    (placeholder : string) : string :=
  if truthy (str value) then
    match List.find (fun opt => String.eqb opt.1 value) options with
    | Some opt => if truthy (str opt.2) then opt.2 else placeholder
    | None => placeholder
    end
  else placeholder.

Definition phoneCodeOptions : list (string * string) :=
  [("+94", "+94"); ("+91", "+91"); ("+1", "+1"); ("+44", "+44")].

Definition titleOptions : list (string * string) :=
  [("Rev", "Rev"); ("Mr", "Mr"); ("Ms", "Ms"); ("Mrs", "Mrs")].

(** The calls among the effects of a handler. *)
Definition is_call (e : Effect) : bool :=
  match e with
  | CallFetchProfile _ | CallUpdateProfile _ _ _ | CallUpdatePassword _ _ _ _ => true
  | _ => false
  end.

Definition calls (effs : list Effect) : list Effect := List.filter is_call effs.

(** A submission asks for a password change when the three password fields
    are filled. *)
Definition wants_password (data : FormValues) : bool :=
  truthy (newPassword data) && truthy (currentPassword data) && truthy (confirmPassword data).

(** The text shown for an error message caught by [onSubmit]. *)
Definition friendly_error (message : JS.value) : string :=
  if strict_eq message (str "Email already exists") then msg_email_in_use
  else if strict_eq message (str "Phone number already exists") then msg_phone_in_use
  else or_else message msg_something_wrong.

Definition resolved {A : Type} (r : Result A) : bool :=
  match r with
  | Ok _ => true
  | Err _ => false
  end.

End Profile.

(** * The package slider

    [PackageSlider] of src/components/home/PackageSlider.tsx: the selection
    of a package, the request for its details and what each card is handed.
    A package id is an integer; the items of a package are opaque. *)

Module Slider.

Section Items.

Variable Items : Type.

Record State : Type := mkState {
  selectedPackageId : option Z;
  packageDetails : option Items;
  isLoadingDetails : bool;
  errorDetails : option string;
  showSuccess : bool;
  successMessage : string;
  showError : bool;
  errorMessage : string
}.

Inductive Effect : Type :=
| CallGetPackageDetails (packageId : Z).

(** How [getPackageDetails] ends: with [res.packageItems], or with an error
    and its [message]. *)
Inductive Settled : Type :=
| Resolved (packageItems : option Items)
| Rejected (message : JS.value).

Definition initial : State :=
  mkState None None false None false "" false "".

Definition Handler : Type := State -> State * list Effect.

Definition skip : Handler := fun s => (s, []).
Definition emit (e : Effect) : Handler := fun s => (s, [e]).
Definition and_then (h k : Handler) : Handler :=
  fun s => let '(s1, e1) := h s in let '(s2, e2) := k s1 in (s2, e1 ++ e2).

Definition setSelectedPackageId (v : option Z) : Handler := fun s =>
  (mkState v (packageDetails s) (isLoadingDetails s) (errorDetails s) (showSuccess s)
           (successMessage s) (showError s) (errorMessage s), []).
Definition setPackageDetails (v : option Items) : Handler := fun s =>
  (mkState (selectedPackageId s) v (isLoadingDetails s) (errorDetails s) (showSuccess s)
           (successMessage s) (showError s) (errorMessage s), []).
Definition setIsLoadingDetails (v : bool) : Handler := fun s =>
  (mkState (selectedPackageId s) (packageDetails s) v (errorDetails s) (showSuccess s)
           (successMessage s) (showError s) (errorMessage s), []).
Definition setErrorDetails (v : option string) : Handler := fun s =>
  (mkState (selectedPackageId s) (packageDetails s) (isLoadingDetails s) v (showSuccess s)
           (successMessage s) (showError s) (errorMessage s), []).
Definition setShowSuccess (v : bool) : Handler := fun s =>
  (mkState (selectedPackageId s) (packageDetails s) (isLoadingDetails s) (errorDetails s) v
           (successMessage s) (showError s) (errorMessage s), []).
Definition setSuccessMessage (v : string) : Handler := fun s =>
  (mkState (selectedPackageId s) (packageDetails s) (isLoadingDetails s) (errorDetails s)
           (showSuccess s) v (showError s) (errorMessage s), []).
Definition setShowError (v : bool) : Handler := fun s =>
  (mkState (selectedPackageId s) (packageDetails s) (isLoadingDetails s) (errorDetails s)
           (showSuccess s) (successMessage s) v (errorMessage s), []).
Definition setErrorMessage (v : string) : Handler := fun s =>
  (mkState (selectedPackageId s) (packageDetails s) (isLoadingDetails s) (errorDetails s)
           (showSuccess s) (successMessage s) (showError s) v, []).

Definition msg_load_failed : string := "Failed to load package details".

(** [selectedPackageId === packageId]. *)
Definition is_selected (s : State) (packageId : Z) : bool :=
  bool_decide (selectedPackageId s = Some packageId).

(** [handlePackageClick] up to its [await]. *)
Definition handlePackageClick (packageId : Z) : Handler := fun s =>
  if is_selected s packageId then skip s
  else
    and_then (setSelectedPackageId (Some packageId))
      (and_then (setIsLoadingDetails true)
         (and_then (setErrorDetails None) (emit (CallGetPackageDetails packageId)))) s.

(** [handlePackageClick] from the [await] on. *)
Definition handlePackageSettled (r : Settled) : Handler :=
  and_then
    (match r with
     | Resolved packageItems => setPackageDetails packageItems
     | Rejected message =>
         let text := if truthy message then to_string message else msg_load_failed in
         and_then (setErrorDetails (Some text))
           (and_then (setErrorMessage text) (setShowError true))
     end)
    (setIsLoadingDetails false).

Definition handleClosePopup : Handler :=
  and_then (setSelectedPackageId None)
    (and_then (setPackageDetails None) (setErrorDetails None)).

Definition handlePackageAddToCartSuccess (message : string) : Handler :=
  and_then (setSuccessMessage message) (and_then (setShowSuccess true) handleClosePopup).

Definition handlePackageAddToCartError (message : string) : Handler :=
  and_then (setErrorMessage message) (setShowError true).

(** The props a card of the slider is rendered with. *)
Record CardProps : Type := mkCard {
  card_id : Z;
  card_isSelected : bool;
  card_packageDetails : option Items;
  card_isLoadingDetails : bool;
  card_errorDetails : option string
}.

Definition cardProps (isMobile : bool) (s : State) (packageId : Z) : CardProps :=
  mkCard packageId
    (is_selected s packageId && negb isMobile)
    (if is_selected s packageId then packageDetails s else None)
    (isLoadingDetails s && is_selected s packageId)
    (if is_selected s packageId then errorDetails s else None).

(** [productData.map(...)], by the ids of the packages. *)
Definition cards (isMobile : bool) (s : State) (ids : list Z) : list CardProps :=
  map (cardProps isMobile s) ids.

(** [isMobile && selectedPackageId]: whether the modal of the mobile layout
    is rendered (the number 0 is falsy). *)
Definition mobileModalShown (isMobile : bool) (s : State) : bool :=
  isMobile &&
  match selectedPackageId s with
  | Some n => negb (n =? 0)%Z
  | None => false
  end.

End Items.

End Slider.

(** ** Auxiliary facts *)

Section StringFacts.

Lemma starts_with_iff (needle hay : string) :
  starts_with needle hay = true <-> exists post, hay = String.append needle post.
Proof.
  revert hay. induction needle as [|a needle IH]; intros hay; simpl.
  - split; [intros _; now exists hay | reflexivity].
  - destruct hay as [|b hay].
    + split; [discriminate | intros [post H]; discriminate H].
    + rewrite andb_true_iff, Ascii.eqb_eq, IH. split.
      * intros [-> [post ->]]. now exists post.
      * intros [post H]. injection H as -> ->. split; [reflexivity | now exists post].
Qed.

(** [includes] finds exactly the substrings. *)
Lemma includes_iff (hay needle : string) :
  includes hay needle = true <->
  exists pre post, hay = String.append pre (String.append needle post).
Proof.
  induction hay as [|c hay IH]; simpl.
  - rewrite orb_false_r, starts_with_iff. split.
    + intros [post H]. now exists EmptyString, post.
    + intros (pre & post & H). destruct pre as [|? ?]; [|discriminate H].
      now exists post.
  - rewrite orb_true_iff, starts_with_iff, IH. split.
    + intros [[post H] | (pre & post & H)].
      * now exists EmptyString, post.
      * exists (String c pre), post. simpl. now rewrite H.
    + intros (pre & post & H). destruct pre as [|c' pre]; simpl in H.
      * left. now exists post.
      * right. exists pre, post. now injection H.
Qed.

Lemma strip_non_digits_all_digits (s : string) :
  Forall (fun c => is_digit c = true) (list_ascii_of_string (strip_non_digits s)).
Proof.
  induction s as [|c s IH]; simpl; [constructor|].
  destruct (is_digit c) eqn:Hc; simpl; auto.
Qed.

Lemma slice0_list (n : nat) (s : string) :
  list_ascii_of_string (slice0 n s) = take n (list_ascii_of_string s).
Proof.
  unfold slice0. revert n. induction s as [|c s IH]; intros [|n]; simpl; try reflexivity.
  now rewrite IH.
Qed.

Lemma strip_non_digits_list (s : string) :
  list_ascii_of_string (strip_non_digits s) =
  filter (fun c => is_digit c = true) (list_ascii_of_string s).
Proof.
  induction s as [|c s IH]; simpl; [reflexivity|].
  destruct (is_digit c) eqn:Hc; simpl.
  - rewrite filter_cons_True by exact Hc. now rewrite IH.
  - rewrite filter_cons_False by (rewrite Hc; discriminate). exact IH.
Qed.

Lemma length_list_ascii (s : string) :
  length (list_ascii_of_string s) = String.length s.
Proof. induction s; simpl; congruence. Qed.

End StringFacts.

Lemma pasted_digits_spec (pastedData : string) :
  list_ascii_of_string (pasted_digits pastedData) =
  take 5 (filter (fun c => is_digit c = true) (list_ascii_of_string pastedData)).
Proof. unfold pasted_digits. now rewrite slice0_list, strip_non_digits_list. Qed.

Lemma pasted_digits_length (pastedData : string) :
  String.length (pasted_digits pastedData) <= 5.
Proof.
  rewrite <- length_list_ascii, pasted_digits_spec, length_take. lia.
Qed.

Lemma pasted_digits_are_digits (pastedData : string) :
  Forall (fun c => is_digit c = true) (list_ascii_of_string (pasted_digits pastedData)).
Proof.
  unfold pasted_digits. rewrite slice0_list.
  apply Forall_take, strip_non_digits_all_digits.
Qed.

(** ** Reachable states *)

Lemma reachable_run (p : Props) (es : list Event) (s : State) :
  run_rendered p es s = true -> reachable s -> reachable (run p es s).
Proof.
  revert s. induction es as [|e es IH]; intros s Hes Hs; [exact Hs|].
  cbn in Hes. apply andb_true_iff in Hes as [He Hes].
  apply (IH _ Hes). apply reachable_step; [exact Hs|].
  now apply bool_decide_eq_true_1 in He.
Qed.

Lemma typed_12345_reachable : reachable typed_12345.
Proof. apply reachable_run; [vm_compute; reflexivity | apply reachable_initial]. Qed.

Lemma typed_second_reachable : reachable typed_second.
Proof. apply reachable_run; [vm_compute; reflexivity | apply reachable_initial]. Qed.


Lemma counted_down_reachable : reachable counted_down.
Proof. apply reachable_run; [vm_compute; reflexivity | apply reachable_initial]. Qed.

Lemma last_tick_reachable : reachable last_tick.
Proof. apply reachable_run; [vm_compute; reflexivity | apply reachable_initial]. Qed.

(** ** Case analysis on a well-formed buffer *)

Lemma otp_wf_cases (a : list JS.value) :
  otp_wf a ->
  exists v0 v1 v2 v3 v4,
    a = [v0; v1; v2; v3; v4] /\
    slot_ok v0 /\ slot_ok v1 /\ slot_ok v2 /\ slot_ok v3 /\ slot_ok v4.
Proof.
  intros [Hlen Hall].
  destruct a as [|v0 [|v1 [|v2 [|v3 [|v4 [|v5 a]]]]]]; try discriminate Hlen.
  exists v0, v1, v2, v3, v4.
  repeat match goal with
         | H : Forall _ (_ :: _) |- _ => apply Forall_cons in H; destruct H
         end.
  auto 10.
Qed.

(** Splits a well-formed buffer into its 5 slots, each empty or a digit. *)
Ltac slot_split H :=
  let c := fresh "c" in
  let Hc := fresh "Hc" in
  destruct H as [-> | (c & Hc & ->)].

Ltac otp_split H :=
  let v0 := fresh "v" in let v1 := fresh "v" in let v2 := fresh "v" in
  let v3 := fresh "v" in let v4 := fresh "v" in
  let H0 := fresh "Hs" in let H1 := fresh "Hs" in let H2 := fresh "Hs" in
  let H3 := fresh "Hs" in let H4 := fresh "Hs" in
  apply otp_wf_cases in H;
  destruct H as (v0 & v1 & v2 & v3 & v4 & -> & H0 & H1 & H2 & H3 & H4);
  slot_split H0; slot_split H1; slot_split H2; slot_split H3; slot_split H4.

(** Proves a concrete buffer well formed. *)
Ltac solve_slot :=
  match goal with
  | |- slot_ok (str EmptyString) => left; reflexivity
  | |- slot_ok (str (String ?c EmptyString)) => right; exists c; split; [assumption | reflexivity]
  end.

Ltac solve_otp_wf :=
  split; [reflexivity | repeat (apply List.Forall_cons; [solve_slot|]); apply List.Forall_nil].

Lemma empty_otp_wf : otp_wf empty_otp.
Proof. unfold empty_otp. solve_otp_wf. Qed.

(** The joined code has 5 characters exactly when no slot is empty. *)
Lemma code_length_complete (a : list JS.value) :
  otp_wf a -> (String.length (JS.join a) = 5 <-> ~ has_empty_slot a).
Proof.
  intros Hwf. unfold has_empty_slot. otp_split Hwf; cbn;
    (split;
     [ intros Hlen; try discriminate Hlen;
       intros [i Hi]; do 5 (destruct i as [|i]; [discriminate Hi|]); discriminate Hi
     | intros Hne; try reflexivity; exfalso; apply Hne;
       first [ now exists 0 | now exists 1 | now exists 2 | now exists 3 | now exists 4 ] ]).
Qed.


(** ** Verification: the local guards *)

Lemma otp_12345_wf : otp_wf otp_12345.
Proof.
  split; [reflexivity|].
  repeat (apply List.Forall_cons; [right; eexists; split; [|reflexivity]; reflexivity|]).
  apply List.Forall_nil.
Qed.

Lemma truthy_str (r : string) : truthy (str r) = true <-> r <> "".
Proof.
  simpl. rewrite negb_true_iff. split.
  - intros H ->. discriminate H.
  - intros H. apply not_true_is_false. intros E. apply H. now apply String.eqb_eq.
Qed.





(** ** Verification: the response *)

(** C3.  The settled call maps [statusCode] to one of four outcomes:
    ['1000'] marks the widget verified, shows the success message and
    schedules, 2000 ms later, the callback that closes the modal and calls
    [onVerificationSuccess]; ['1001'] shows the invalid-code error; ['1002']
    and ['1003'] set the expired flag and show the expired error; any other
    code shows the generic error and leaves the expired flag as it was. *)
Theorem verify_status_outcomes (s : State) (statusCode : JS.value) :
  let s' := (handleVerifySettled (Resolved statusCode) s).1 in
  let effs := (handleVerifySettled (Resolved statusCode) s).2 in
  (statusCode = str "1000" ->
     isVerified s' = true /\ isError s' = false /\ isModalOpen s' = true /\
     modalMessage s' = str msg_verified /\ isOtpExpired s' = isOtpExpired s /\
     effs = [SetTimeout successTimeout 2000] /\
     (forall s'', isModalOpen (successTimeout s'').1 = false /\
                  (successTimeout s'').2 = [OnVerificationSuccess])) /\
  (statusCode = str "1001" ->
     isError s' = true /\ isModalOpen s' = true /\ modalMessage s' = str msg_invalid /\
     isVerified s' = isVerified s /\ isOtpExpired s' = isOtpExpired s /\ effs = []) /\
  (statusCode = str "1002" \/ statusCode = str "1003" ->
     isOtpExpired s' = true /\
     isError s' = true /\ isModalOpen s' = true /\ modalMessage s' = str msg_expired /\
     isVerified s' = isVerified s /\ effs = []) /\
  (statusCode <> str "1000" -> statusCode <> str "1001" ->
   statusCode <> str "1002" -> statusCode <> str "1003" ->
     isError s' = true /\ isModalOpen s' = true /\ modalMessage s' = str msg_wrong /\
     isVerified s' = isVerified s /\ isOtpExpired s' = isOtpExpired s /\ effs = []).
Proof.
  destruct s as [a t dr iv mo ie mm ex vf rs].
  unfold handleVerifySettled, strict_eq.
  repeat split; intros; subst;
    repeat match goal with
           | H : _ \/ _ |- _ => destruct H; subst
           end;
    cbn; repeat case_bool_decide; try congruence; reflexivity.
Qed.

(** C8, as amended.  A rejected call is treated as an expired session
    exactly when the error has a message whose lower-cased text contains
    "expired"; otherwise the expired flag keeps its value and the generic
    failure message is shown. *)
Theorem verify_failure_classification (s : State) (message : JS.value) :
  let s' := (handleVerifySettled (Rejected message) s).1 in
  let mentions_expired :=
    exists m pre post,
      message = str m /\ toLowerCase m = String.append pre (String.append "expired" post) in
  (handleVerifySettled (Rejected message) s).2 = [] /\
  isError s' = true /\ isModalOpen s' = true /\ isVerifying s' = false /\
  (mentions_expired -> isOtpExpired s' = true /\ modalMessage s' = str msg_expired) /\
  (~ mentions_expired ->
     isOtpExpired s' = isOtpExpired s /\ modalMessage s' = str msg_failed).
Proof.
  destruct s as [a t dr iv mo ie mm ex vf rs].
  cbv zeta. unfold handleVerifySettled.
  destruct (truthy message && includes (toLowerCase (to_string message)) "expired") eqn:E.
  - apply andb_true_iff in E as [Ht E]. apply includes_iff in E as (pre & post & E).
    cbn. do 4 (split; [reflexivity|]). split; [intros _; split; reflexivity|].
    intros Hn. exfalso. apply Hn.
    destruct message as [|m]; [discriminate Ht|]. now exists m, pre, post.
  - assert (~ exists m pre post,
               message = str m /\
               toLowerCase m = String.append pre (String.append "expired" post)) as Hn.
    { intros (m & pre & post & -> & Hm).
      assert (includes (toLowerCase m) "expired" = true) as Hi
        by (apply includes_iff; now exists pre, post).
      cbn [to_string] in E. rewrite Hi, andb_true_r in E.
      destruct m; [destruct pre; discriminate Hm | discriminate E]. }
    cbn. do 4 (split; [reflexivity|]). split; [intros H; contradiction|].
    intros _. split; reflexivity.
Qed.

(** C8 as stated fails on upper-case text: the message "OTP Expired" does
    not contain the substring "expired", and the widget still sets the
    expired flag and shows the expired message. *)
Lemma verify_failure_case_counterexample :
  (forall pre post, "OTP Expired" <> String.append pre (String.append "expired" post)) /\
  isOtpExpired initial = false /\
  isOtpExpired (handleVerifySettled (Rejected (str "OTP Expired")) initial).1 = true /\
  modalMessage (handleVerifySettled (Rejected (str "OTP Expired")) initial).1 = str msg_expired.
Proof.
  split; [|repeat split].
  intros pre post H.
  assert (includes "OTP Expired" "expired" = true) as Hi
    by (apply includes_iff; now exists pre, post).
  discriminate Hi.
Qed.

(** ** Resend *)

(** C7.  When the resend call resolves with a (non-empty) reference, the
    widget passes it to [onResendOTP], resets the countdown to 60, disables
    resend again, clears the expired flag and empties all 5 slots; the
    timer effect that follows changes nothing more. *)
Theorem resend_success_resets (p : Props) (s : State) (newReferenceId : JS.value)
    (Hnew : truthy newReferenceId = true) :
  let s' := (handleResendSettled (Resolved newReferenceId) s).1 in
  let effs := (handleResendSettled (Resolved newReferenceId) s).2 in
  timer s' = 60%Z /\ disabledResend s' = true /\ isOtpExpired s' = false /\
  otp s' = [str ""; str ""; str ""; str ""; str ""] /\
  effs = [OnResendOTP newReferenceId; Focus 0] /\
  isResending s' = false /\
  step p (ResendSettled (Resolved newReferenceId)) s = (s', effs) /\
  step p TimerEffect s' = (s', []).
Proof.
  destruct s as [a t dr iv mo ie mm ex vf rs].
  cbv zeta. unfold step, dispatch, handleResendSettled. rewrite Hnew. cbn.
  repeat split.
Qed.

Lemma resend_success_resets_witness :
  truthy (str "ref-2") = true /\
  (handleResendSettled (Resolved (str "ref-2")) typed_12345).2
  = [OnResendOTP (str "ref-2"); Focus 0].
Proof.
  split; [reflexivity|].
  apply (resend_success_resets demo_props typed_12345 (str "ref-2")).
  reflexivity.
Defined.

(** ** Paste *)

(** C10.  A paste without any decimal digit changes nothing: the state,
    and so every slot of the buffer, is what it was, and no focus call is
    made (only the default paste is suppressed). *)
Theorem paste_without_digits_noop (pastedData : string) (s : State)
    (Hnone : strip_non_digits pastedData = "") :
  handlePaste pastedData s = (s, [PreventDefault]) /\
  otp (handlePaste pastedData s).1 = otp s /\
  (forall idx, ~ In (Focus idx) (handlePaste pastedData s).2).
Proof.
  assert (handlePaste pastedData s = (s, [PreventDefault])) as E.
  { unfold handlePaste, pasted_digits. rewrite Hnone. reflexivity. }
  rewrite E. repeat split. intros idx [H|[]]. discriminate H.
Qed.

Lemma paste_without_digits_noop_witness :
  strip_non_digits "ab-c d" = "" /\
  otp (handlePaste "ab-c d" typed_12345).1 = otp_12345.
Proof.
  split; [reflexivity|].
  apply (paste_without_digits_noop "ab-c d" typed_12345).
  reflexivity.
Defined.

(** What a paste of at least one digit computes, in closed form. *)
Lemma handlePaste_result (pastedData : string) (s : State) :
  length (otp s) = 5 ->
  0 < String.length (pasted_digits pastedData) ->
  handlePaste pastedData s =
  (with_otp (map digit_slot (list_ascii_of_string (pasted_digits pastedData))
             ++ replicate (5 - String.length (pasted_digits pastedData)) (str "")) s,
   [PreventDefault; Focus (Nat.min (String.length (pasted_digits pastedData)) 4)]).
Proof.
  intros Hlen Hk. pose proof (pasted_digits_length pastedData) as Hk5.
  unfold handlePaste. destruct (pasted_digits pastedData) as [|c0 d]; [inversion Hk|].
  destruct s as [a t dr iv mo ie mm ex vf rs]; cbn [otp] in *.
  destruct a as [|v0 [|v1 [|v2 [|v3 [|v4 [|v5 a]]]]]]; try discriminate Hlen.
  destruct d as [|c1 [|c2 [|c3 [|c4 [|c5 d]]]]]; try reflexivity.
  cbn in Hk5. lia.
Qed.

(** C5, as amended.  For a paste that keeps k >= 1 digits (non-digits
    stripped, at most the first 5 kept): slots [0,k) receive those digits in
    order, every slot in [k,5) is cleared, and focus goes to slot min(k,4),
    which is the first empty slot when k < 5 and the last slot when k = 5. *)
Theorem paste_fills_and_clears (pastedData : string) (s : State)
    (Hlen : length (otp s) = 5)
    (Hk : 0 < String.length (pasted_digits pastedData)) :
  let digits := list_ascii_of_string (pasted_digits pastedData) in
  let k := length digits in
  let s' := (handlePaste pastedData s).1 in
  digits = take 5 (filter (fun c => is_digit c = true) (list_ascii_of_string pastedData)) /\
  k <= 5 /\
  length (otp s') = 5 /\
  (forall i, i < k -> otp s' !! i = digit_slot <$> digits !! i) /\
  (forall i, k <= i < 5 -> otp s' !! i = Some (str "")) /\
  (handlePaste pastedData s).2 = [PreventDefault; Focus (Nat.min k 4)] /\
  (k < 5 -> otp s' !! Nat.min k 4 = Some (str "") /\
            forall i, i < Nat.min k 4 -> otp s' !! i <> Some (str "")) /\
  (k = 5 -> Nat.min k 4 = 4).
Proof.
  cbv zeta. rewrite (handlePaste_result _ _ Hlen Hk).
  pose proof (pasted_digits_length pastedData) as Hk5.
  rewrite <- length_list_ascii in Hk5. rewrite <- !length_list_ascii.
  cbn [fst snd with_otp setOtp otp].
  set (ds := list_ascii_of_string (pasted_digits pastedData)) in *.
  assert (forall i, i < length ds ->
            (map digit_slot ds ++ replicate (5 - length ds) (str "")) !! i
            = digit_slot <$> ds !! i) as Hfill.
  { intros i Hi. rewrite lookup_app_l by (rewrite length_map; exact Hi).
    apply list_lookup_fmap. }
  split; [apply pasted_digits_spec|]. split; [exact Hk5|].
  split; [rewrite length_app, length_map, length_replicate; lia|].
  split; [exact Hfill|].
  assert (forall i, length ds <= i < 5 ->
            (map digit_slot ds ++ replicate (5 - length ds) (str "")) !! i
            = Some (str "")) as Hclear.
  { intros i Hi. rewrite lookup_app_r by (rewrite length_map; lia).
    rewrite length_map. apply lookup_replicate_2. lia. }
  split; [exact Hclear|]. split; [reflexivity|]. split; [|lia].
  intros Hlt. rewrite Nat.min_l by lia. split; [apply Hclear; lia|].
  intros i Hi. rewrite Hfill by exact Hi.
  destruct (ds !! i) as [c|] eqn:Ec; [discriminate|].
  apply lookup_ge_None in Ec. lia.
Qed.

Lemma paste_fills_and_clears_witness :
  length (otp typed_12345) = 5 /\
  0 < String.length (pasted_digits "a9b8-7") /\
  otp (handlePaste "a9b8-7" typed_12345).1 !! 3 = Some (str "").
Proof.
  split; [reflexivity|]. split; [vm_compute; lia|].
  apply (paste_fills_and_clears "a9b8-7" typed_12345).
  - reflexivity.
  - vm_compute; lia.
  - vm_compute; lia.
Defined.

(** C5 as stated fails for k = 0: a paste without digits leaves the slots
    [0,5) as they were instead of clearing them, and moves no focus. *)
Lemma paste_no_digit_counterexample :
  reachable typed_12345 /\
  String.length (pasted_digits "abc") = 0 /\
  otp (handlePaste "abc" typed_12345).1 !! 0 = Some (str "1") /\
  ~ (forall i, 0 <= i < 5 ->
       otp (handlePaste "abc" typed_12345).1 !! i = Some (str "")) /\
  (handlePaste "abc" typed_12345).2 = [PreventDefault].
Proof.
  split; [exact typed_12345_reachable|].
  repeat split. intros H. specialize (H 0 ltac:(lia)). discriminate H.
Qed.

(** ** Backspace and Delete *)

Lemma shifted_lookup (a : list JS.value) (idx j : nat) :
  idx < length a ->
  shifted a idx !! j =
    if decide (j < idx) then a !! j
    else if decide (S j < length a) then a !! S j
    else if decide (S j = length a) then Some (str "")
    else None.
Proof.
  intros Hidx. unfold shifted.
  assert (length (delete idx a) = length a - 1) as Hl.
  { rewrite length_delete; [reflexivity|]. now apply lookup_lt_is_Some. }
  repeat case_decide.
  - rewrite lookup_app_l by lia. now apply list_lookup_delete_lt.
  - rewrite lookup_app_l by lia. apply list_lookup_delete_ge. lia.
  - rewrite lookup_app_r by lia. replace (j - length (delete idx a)) with 0 by lia.
    reflexivity.
  - apply lookup_ge_None. rewrite length_app. simpl. lia.
Qed.

(** Refutes a decidable hypothesis that evaluates to false. *)
Ltac refute H :=
  let P := type of H in
  let Hb := fresh "Hb" in
  assert (bool_decide P = true) as Hb by (apply bool_decide_eq_true_2; exact H);
  vm_compute in Hb; discriminate Hb.

Ltac refute_any :=
  match goal with
  | H : _ |- _ => refute H
  end.

Lemma slot_index_cases (idx : nat) :
  idx < 5 -> idx = 0 \/ idx = 1 \/ idx = 2 \/ idx = 3 \/ idx = 4.
Proof. lia. Qed.

Ltac index_cases H :=
  apply slot_index_cases in H; destruct H as [->|[->|[->|[->| ->]]]].

(** Settles a statement about a key handler on a well-formed buffer by
    running the handler on each shape of the buffer. *)
Ltac run_key_handler :=
  repeat split; intros;
  first [ vm_compute; reflexivity | exfalso; first [refute_any | lia] ].

(** Both key handlers in closed form, on a well-formed buffer. *)
Lemma key_handlers_closed_form (s : State) (idx : nat) :
  otp_wf (otp s) -> idx < 5 ->
  (filled (JS.get (otp s) idx) ->
     handleKeyDown "Backspace" idx s
     = (with_otp (<[idx := str ""]> (otp s)) s, [PreventDefault])) /\
  (JS.get (otp s) idx = str "" -> Exists filled (drop (S idx) (otp s)) ->
     handleKeyDown "Backspace" idx s
     = (with_otp (shifted (otp s) idx) s, [PreventDefault])) /\
  (JS.get (otp s) idx = str "" -> Forall (fun v => v = str "") (drop (S idx) (otp s)) ->
   0 < idx ->
     handleKeyDown "Backspace" idx s
     = (with_otp (<[idx - 1 := str ""]> (otp s)) s, [PreventDefault; Focus (idx - 1)])) /\
  (JS.get (otp s) idx = str "" -> Forall (fun v => v = str "") (drop (S idx) (otp s)) ->
   idx = 0 ->
     handleKeyDown "Backspace" idx s = (s, [PreventDefault])) /\
  (filled (JS.get (otp s) idx) ->
     handleKeyDown "Delete" idx s
     = (with_otp (shifted (otp s) idx) s, [PreventDefault])) /\
  (JS.get (otp s) idx = str "" ->
     handleKeyDown "Delete" idx s = (s, [PreventDefault])).
Proof.
  intros Hwf Hidx.
  destruct s as [a t dr iv mo ie mm ex vf rs]. cbn [otp] in *.
  unfold filled.
  index_cases Hidx; otp_split Hwf; run_key_handler.
Qed.

(** C6, as amended.  Backspace on a non-empty slot clears it in place.  On
    an empty slot with a digit somewhere to its right, the slots from idx on
    move one place left (the last one becoming empty) and focus is not
    moved.  On an empty slot with nothing to its right, slot idx-1 is
    cleared and focused when idx > 0, and nothing changes when idx = 0. *)
Theorem backspace_semantics (s : State) (idx : nat)
    (Hwf : otp_wf (otp s)) (Hidx : idx < 5) :
  let r := handleKeyDown "Backspace" idx s in
  (filled (JS.get (otp s) idx) ->
     r = (with_otp (<[idx := str ""]> (otp s)) s, [PreventDefault])) /\
  (JS.get (otp s) idx = str "" -> Exists filled (drop (S idx) (otp s)) ->
     r = (with_otp (shifted (otp s) idx) s, [PreventDefault])) /\
  (JS.get (otp s) idx = str "" -> Forall (fun v => v = str "") (drop (S idx) (otp s)) ->
   0 < idx ->
     r = (with_otp (<[idx - 1 := str ""]> (otp s)) s, [PreventDefault; Focus (idx - 1)])) /\
  (JS.get (otp s) idx = str "" -> Forall (fun v => v = str "") (drop (S idx) (otp s)) ->
   idx = 0 ->
     r = (s, [PreventDefault])).
Proof.
  destruct (key_handlers_closed_form s idx Hwf Hidx) as (H1 & H2 & H3 & H4 & _).
  cbv zeta. auto.
Qed.

Lemma backspace_semantics_witness :
  otp_wf (otp (with_otp [str ""; str "2"; str ""; str "4"; str ""] initial)) /\
  0 < 5 /\
  handleKeyDown "Backspace" 0 (with_otp [str ""; str "2"; str ""; str "4"; str ""] initial)
  = (with_otp [str "2"; str ""; str "4"; str ""; str ""] initial, [PreventDefault]).
Proof.
  assert (otp_wf [str ""; str "2"; str ""; str "4"; str ""]) as Hwf.
  { split; [reflexivity|].
    repeat (apply List.Forall_cons;
            [first [left; reflexivity | right; eexists; split; [|reflexivity]; reflexivity]|]).
    apply List.Forall_nil. }
  split; [exact Hwf|]. split; [lia|].
  apply (backspace_semantics (with_otp [str ""; str "2"; str ""; str "4"; str ""] initial) 0
           Hwf ltac:(lia)).
  - reflexivity.
  - apply Exists_cons_hd. discriminate.
Defined.

(** C6 as stated fails on the shift: Backspace on the empty slot 0 of
    ['', '2', '', '', ''] moves the digit left and calls no [focus]; the
    slot left empty by the shift (slot 1) is not focused. *)
Lemma backspace_shift_focus_counterexample :
  reachable typed_second /\
  otp typed_second = [str ""; str "2"; str ""; str ""; str ""] /\
  otp (handleKeyDown "Backspace" 0 typed_second).1
  = [str "2"; str ""; str ""; str ""; str ""] /\
  (handleKeyDown "Backspace" 0 typed_second).2 = [PreventDefault] /\
  ~ (exists j, In (Focus j) (handleKeyDown "Backspace" 0 typed_second).2).
Proof.
  split; [exact typed_second_reachable|].
  repeat split. intros [j [H|[]]]. discriminate H.
Qed.

(** C9, as amended.  Delete on a non-empty slot removes its digit, moves
    the slots to its right one place left and empties the last slot: the
    shift that Backspace performs on an empty slot with digits to its
    right.  Delete on an empty slot changes nothing.  In both cases no
    focus call is made. *)
Theorem delete_semantics (s : State) (idx : nat)
    (Hwf : otp_wf (otp s)) (Hidx : idx < 5) :
  let r := handleKeyDown "Delete" idx s in
  (filled (JS.get (otp s) idx) ->
     r = (with_otp (shifted (otp s) idx) s, [PreventDefault])) /\
  (JS.get (otp s) idx = str "" -> r = (s, [PreventDefault])) /\
  (forall j, ~ In (Focus j) r.2) /\
  (JS.get (otp s) idx = str "" -> Exists filled (drop (S idx) (otp s)) ->
     otp (handleKeyDown "Backspace" idx s).1 = shifted (otp s) idx).
Proof.
  destruct (key_handlers_closed_form s idx Hwf Hidx) as (_ & H2 & _ & _ & H5 & H6).
  cbv zeta. split; [exact H5|]. split; [exact H6|]. split.
  - intros j Hj.
    destruct (decide (JS.get (otp s) idx = str "")) as [E|E].
    + rewrite (H6 E) in Hj. destruct Hj as [Hj|[]]. discriminate Hj.
    + rewrite (H5 E) in Hj. destruct Hj as [Hj|[]]. discriminate Hj.
  - intros E Hx. now rewrite (H2 E Hx).
Qed.

Lemma delete_semantics_witness :
  otp_wf (otp typed_12345) /\ 1 < 5 /\
  handleKeyDown "Delete" 1 typed_12345
  = (with_otp [str "1"; str "3"; str "4"; str "5"; str ""] initial, [PreventDefault]).
Proof.
  split; [exact otp_12345_wf|]. split; [lia|].
  apply (delete_semantics typed_12345 1 otp_12345_wf ltac:(lia)).
  discriminate.
Defined.

(** C9 as stated fails on an empty slot: Delete on the empty slot 0 of
    ['', '2', '', '', ''] leaves the buffer as it is, where the shift
    (Backspace on that slot) gives ['2', '', '', '', '']. *)
Lemma delete_empty_slot_counterexample :
  reachable typed_second /\
  otp typed_second = [str ""; str "2"; str ""; str ""; str ""] /\
  otp (handleKeyDown "Delete" 0 typed_second).1
  = [str ""; str "2"; str ""; str ""; str ""] /\
  otp (handleKeyDown "Backspace" 0 typed_second).1
  = [str "2"; str ""; str ""; str ""; str ""] /\
  otp (handleKeyDown "Delete" 0 typed_second).1 <> shifted (otp typed_second) 0.
Proof.
  split; [exact typed_second_reachable|].
  repeat split. discriminate.
Qed.

(** ** What each event can change *)

Lemma with_otp_same (s : State) : with_otp (otp s) s = s.
Proof. now destruct s. Qed.

(** An edit event sets the buffer and nothing else. *)
Lemma edit_sets_only_otp (p : Props) (e : Event) (s : State) :
  is_edit e = true -> exists a effs, dispatch p e s = (with_otp a s, effs).
Proof.
  destruct e; try discriminate; intros _; cbn [dispatch].
  - unfold handleChange. destruct (negb _).
    + exists (otp s), []. now rewrite with_otp_same.
    + destruct (truthy _ && _); eexists _, _; reflexivity.
  - unfold handleKeyDown, handleBackspace, handleDelete.
    repeat match goal with
           | |- context [if ?b then _ else _] => destruct b
           end;
      first [ eexists _, _; reflexivity
            | exists (otp s); eexists; rewrite with_otp_same; reflexivity ].
  - unfold handlePaste. destruct (0 <? _)%nat.
    + eexists _, _; reflexivity.
    + exists (otp s); eexists; rewrite with_otp_same; reflexivity.
Qed.

Lemma step_edit (p : Props) (e : Event) (s : State) :
  is_edit e = true -> step p e s = dispatch p e s.
Proof.
  intros _. reflexivity.
Qed.

(** Unfolds the handlers that do not edit the buffer and splits on their
    tests. *)
Ltac unfold_handlers :=
  cbv beta iota zeta delta
    [step dispatch tick timerEffect handleVerify handleVerifySettled successTimeout
     handleResendOTP handleResendSettled resendCatch and_then skip emit
     setOtp setTimer setDisabledResend setIsVerified setIsModalOpen setIsError
     setModalMessage setIsOtpExpired setIsVerifying setIsResending
     otp timer disabledResend isVerified isModalOpen isError modalMessage
     isOtpExpired isVerifying isResending fst snd resend_succeeds locked].

Ltac split_handlers :=
  repeat (unfold_handlers;
          match goal with
          | |- context [match ?r with Resolved _ => _ | Rejected _ => _ end] => destruct r
          | |- context [if ?b then _ else _] => destruct b eqn:?
          end);
  unfold_handlers.

Ltac z_tests :=
  repeat match goal with
         | H : (_ <? _)%Z = true |- _ => apply Z.ltb_lt in H
         | H : (_ <? _)%Z = false |- _ => apply Z.ltb_ge in H
         | H : (_ =? _)%Z = true |- _ => apply Z.eqb_eq in H
         | H : (_ =? _)%Z = false |- _ => apply Z.eqb_neq in H
         end.

Lemma step_countdown_inv (p : Props) (e : Event) (s : State) :
  countdown_inv s -> countdown_inv (step p e s).1.
Proof.
  destruct (is_edit e) eqn:He.
  - rewrite (step_edit p e s He).
    destruct (edit_sets_only_otp p e s He) as (a & effs & ->). now destruct s.
  - destruct s as [a t dr iv mo ie mm ex vf rs]. unfold countdown_inv.
    cbn [timer isOtpExpired disabledResend]. intros [Ht H0].
    destruct e; try discriminate He; split_handlers; z_tests;
      (split; [lia|]); intros Hd; try discriminate Hd;
      try (split; [lia | reflexivity]);
      destruct (H0 Hd) as [Hz Hx]; split; first [assumption | reflexivity | lia].
Qed.

Lemma reachable_countdown_inv (s : State) : reachable s -> countdown_inv s.
Proof.
  induction 1 as [|p e s _ IH _].
  - split; [cbn; lia | cbn; discriminate].
  - now apply step_countdown_inv.
Qed.

(** Apart from a successful resend, the timer moves only on a tick, and
    then by one. *)
Lemma step_timer (p : Props) (e : Event) (s : State) :
  resend_succeeds e = false ->
  timer (step p e s).1 = timer s \/
  (e = Tick /\ (0 < timer s)%Z /\ timer (step p e s).1 = (timer s - 1)%Z).
Proof.
  destruct (is_edit e) eqn:He.
  - intros _. left. rewrite (step_edit p e s He).
    destruct (edit_sets_only_otp p e s He) as (a & effs & ->). reflexivity.
  - destruct s as [a t dr iv mo ie mm ex vf rs].
    destruct e; try discriminate He;
      cbn [resend_succeeds];
      try (destruct r as [v|m]; [destruct (truthy v) eqn:Hv|]; try discriminate);
      intros _; split_handlers; z_tests;
      first [ left; reflexivity | right; repeat split; assumption | congruence | lia ].
Qed.

(** The locked sub-state is left only by a successful resend, which
    restarts the countdown. *)
Lemma step_locked (p : Props) (e : Event) (s : State) :
  locked s ->
  if resend_succeeds e
  then timer (step p e s).1 = 60%Z /\ isOtpExpired (step p e s).1 = false /\
       disabledResend (step p e s).1 = true
  else locked (step p e s).1.
Proof.
  destruct (is_edit e) eqn:He.
  - rewrite (step_edit p e s He).
    destruct (edit_sets_only_otp p e s He) as (a & effs & ->).
    destruct e; try discriminate He; now destruct s.
  - destruct s as [a t dr iv mo ie mm ex vf rs]. unfold locked at 1.
    cbn [timer isOtpExpired disabledResend]. intros (-> & -> & ->).
    destruct e; try discriminate He; split_handlers; z_tests;
      repeat split; try reflexivity; try congruence; try lia.
Qed.

(** After expiry Verify never reaches the server. *)
Lemma expired_no_verify_call (p : Props) (s : State) :
  isOtpExpired s = true -> no_verify_call (handleVerify p s).2.
Proof.
  intros Hx code reference. unfold handleVerify. rewrite Hx.
  destruct (isVerifying s); [intros []|].
  destruct (negb _); cbn; intros [].
Qed.

(** After expiry an idle widget answers Verify with the error modal. *)
Lemma expired_verify_error (p : Props) (s : State) :
  isOtpExpired s = true -> isVerifying s = false ->
  isError (handleVerify p s).1 = true /\ isModalOpen (handleVerify p s).1 = true.
Proof.
  intros Hx Hv. unfold handleVerify. rewrite Hx, Hv.
  destruct (negb _); cbn; split; reflexivity.
Qed.

(** ** The countdown *)

(** The timer effect does nothing while the countdown is positive, and at
    zero it puts the widget into the locked sub-state. *)
Lemma timerEffect_result (p : Props) (s : State) :
  ((0 < timer s)%Z -> step p TimerEffect s = (s, [])) /\
  (timer s = 0%Z -> locked (step p TimerEffect s).1).
Proof.
  destruct s as [a t dr iv mo ie mm ex vf rs]. cbn [timer].
  split; intros Ht; split_handlers; z_tests;
    first [reflexivity | lia | (repeat split; first [assumption | reflexivity])].
Qed.

(** C4, as amended.  The countdown starts at 60 and stays within 0..60;
    unless a resend succeeds, an event leaves it as it is or, for a tick at
    a positive value, takes one off.  The timer effect does nothing while
    the countdown is positive; run at zero, it sets the expired flag and
    unlocks resend.  In every reachable state in which resend is unlocked
    the countdown is at zero and the expired flag is set.  With the expired
    flag set Verify makes no call, and an idle widget shows the error modal
    instead.  The locked sub-state (countdown at zero, expired, resend
    unlocked) is kept by every event that is not a successful resend, and a
    successful resend puts the countdown back to 60, clears the expired flag
    and locks resend again. *)
Theorem countdown_lock (p : Props) (e : Event) (s : State) (Hr : reachable s) :
  let s' := (step p e s).1 in
  timer initial = 60%Z /\
  (0 <= timer s <= 60)%Z /\
  (resend_succeeds e = false -> (timer s' <= timer s)%Z) /\
  (resend_succeeds e = false -> e <> Tick -> timer s' = timer s) /\
  ((0 < timer s)%Z -> timer (step p Tick s).1 = (timer s - 1)%Z) /\
  ((0 < timer s)%Z -> step p TimerEffect s = (s, [])) /\
  (timer s = 0%Z -> locked (step p TimerEffect s).1) /\
  (disabledResend s = false -> locked s) /\
  (isOtpExpired s = true ->
     no_verify_call (handleVerify p s).2 /\
     (isVerifying s = false ->
        isError (handleVerify p s).1 = true /\ isModalOpen (handleVerify p s).1 = true)) /\
  (locked s ->
     (resend_succeeds e = false ->
        locked s' /\ no_verify_call (handleVerify p s').2) /\
     (resend_succeeds e = true ->
        timer s' = 60%Z /\ isOtpExpired s' = false /\ disabledResend s' = true)).
Proof.
  cbv zeta. destruct (reachable_countdown_inv s Hr) as [Ht H0].
  split; [reflexivity|]. split; [exact Ht|].
  split; [|split; [|split; [|split; [|split; [|split; [|split]]]]]].
  - intros He. destruct (step_timer p e s He) as [->|(_ & _ & ->)]; lia.
  - intros He Hne. destruct (step_timer p e s He) as [->|(E & _)]; [reflexivity|contradiction].
  - intros Hpos. destruct (step_timer p Tick s eq_refl) as [E|(_ & _ & E)]; [|exact E].
    exfalso. revert E. destruct s as [a t dr iv mo ie mm ex vf rs].
    cbn [timer] in *. split_handlers; z_tests; lia.
  - apply timerEffect_result.
  - apply timerEffect_result.
  - intros Hd. destruct (H0 Hd) as [Hz Hx]. repeat split; assumption.
  - intros Hx. split; [now apply expired_no_verify_call | now apply expired_verify_error].
  - intros Hl. pose proof (step_locked p e s Hl) as Hs.
    split; intros He; rewrite He in Hs; [|exact Hs].
    split; [exact Hs|]. apply expired_no_verify_call. apply Hs.
Qed.

Lemma countdown_lock_witness :
  reachable counted_down /\
  locked counted_down /\
  locked (step demo_props ClickVerify counted_down).1.
Proof.
  pose proof counted_down_reachable as Hr.
  split; [exact Hr|].
  destruct (countdown_lock demo_props ClickVerify _ Hr) as (_ & _ & _ & _ & _ & _ & _ & Hd & _ & H).
  pose proof (Hd eq_refl) as Hl.
  split; [exact Hl|].
  destruct (H Hl) as [Hk _]. now apply Hk.
Defined.

(** C4 as stated fails in the render committed by the last tick, before the
    timer effect has run: the countdown is at zero, the expired flag is not
    set, resend is still locked, and Verify calls the server. *)
Lemma countdown_zero_before_effect_counterexample :
  reachable last_tick /\
  timer last_tick = 0%Z /\
  isOtpExpired last_tick = false /\
  disabledResend last_tick = true /\
  (handleVerify demo_props last_tick).2 = [CallVerifyOTP "12345" "ref-1"].
Proof.
  split; [exact last_tick_reachable|].
  repeat split.
Qed.

(** ** The buffer invariant *)

(** Evaluates the buffer a handler leaves, keeping the digits abstract. *)
Ltac eval_otp :=
  match goal with
  | |- otp_wf ?x => let r := eval vm_compute in x in change (otp_wf r)
  end.

(** What the test of [handleChange] accepts. *)
Lemma test_optional_digit_iff (value : string) :
  test_optional_digit value = true <->
  value = "" \/ exists c, is_digit c = true /\ value = String c EmptyString.
Proof.
  destruct value as [|c [|c' value]]; cbn.
  - split; [now left | reflexivity].
  - split.
    + intros Hc. right. now exists c.
    + intros [H|(c0 & Hc & H)]; [discriminate H | congruence].
  - split; [discriminate|]. intros [H|(c0 & _ & H)]; discriminate H.
Qed.

Lemma handleChange_wf (value : string) (idx : nat) (s : State) :
  otp_wf (otp s) -> idx < 5 -> otp_wf (otp (handleChange value idx s).1).
Proof.
  intros Hwf Hidx. unfold handleChange.
  destruct (test_optional_digit value) eqn:Ht; cbn [negb]; [|exact Hwf].
  apply test_optional_digit_iff in Ht.
  destruct s as [a t dr iv mo ie mm ex vf rs]. cbn [otp] in *.
  destruct Ht as [-> | (d & Hd & ->)];
    index_cases Hidx; otp_split Hwf; eval_otp; solve_otp_wf.
Qed.

Lemma handleKeyDown_wf (key : string) (idx : nat) (s : State) :
  otp_wf (otp s) -> idx < 5 -> otp_wf (otp (handleKeyDown key idx s).1).
Proof.
  intros Hwf Hidx. unfold handleKeyDown.
  destruct (String.eqb key "Backspace"); [|destruct (String.eqb key "Delete")];
    [..|exact Hwf];
    destruct s as [a t dr iv mo ie mm ex vf rs]; cbn [otp] in *;
    index_cases Hidx; otp_split Hwf; eval_otp; solve_otp_wf.
Qed.

Lemma handlePaste_wf (pastedData : string) (s : State) :
  otp_wf (otp s) -> otp_wf (otp (handlePaste pastedData s).1).
Proof.
  intros Hwf.
  destruct (Nat.eq_dec (String.length (pasted_digits pastedData)) 0) as [E|E].
  - unfold handlePaste. rewrite E. exact Hwf.
  - rewrite handlePaste_result by (first [apply Hwf | lia]).
    cbn [fst with_otp setOtp otp].
    pose proof (pasted_digits_length pastedData) as Hk.
    pose proof (pasted_digits_are_digits pastedData) as Hd.
    rewrite <- length_list_ascii in *.
    set (ds := list_ascii_of_string (pasted_digits pastedData)) in *.
    split.
    + rewrite length_app, length_map, length_replicate. lia.
    + apply Forall_app. split.
      * apply Forall_fmap. eapply Forall_impl; [exact Hd|].
        intros c Hc. right. now exists c.
      * apply Forall_replicate. now left.
Qed.

(** Every event keeps the buffer well formed. *)
Lemma step_otp_wf (p : Props) (e : Event) (s : State) :
  otp_wf (otp s) -> rendered s e -> otp_wf (otp (step p e s).1).
Proof.
  intros Hwf He. destruct (is_edit e) eqn:Hed.
  - rewrite (step_edit p e s Hed). destruct Hwf as [Hlen Hall].
    destruct e; try discriminate Hed; cbn [dispatch rendered] in *;
      try rewrite Hlen in He.
    + now apply handleChange_wf.
    + now apply handleKeyDown_wf.
    + now apply handlePaste_wf.
  - destruct s as [a t dr iv mo ie mm ex vf rs]. cbn [otp] in *.
    destruct e; try discriminate Hed; split_handlers;
      first [exact Hwf | exact empty_otp_wf].
Qed.

Lemma reachable_otp_wf (s : State) : reachable s -> otp_wf (otp s).
Proof.
  induction 1 as [|p e s _ IH He]; [exact empty_otp_wf | now apply step_otp_wf].
Qed.

(** C2, as amended.  In every reachable state the buffer has exactly 5
    slots, each the empty string or one decimal digit, and typing, Backspace,
    Delete, paste and the reset of a successful resend keep it so.  Typing a
    value that is neither empty nor a single decimal digit leaves the state
    unchanged; typing the empty value clears the slot. *)
Theorem otp_buffer_invariant (p : Props) (s : State) (Hr : reachable s) :
  otp_wf (otp s) /\
  (forall e, rendered s e -> otp_wf (otp (step p e s).1)) /\
  (forall value idx, idx < 5 -> otp_wf (otp (handleChange value idx s).1)) /\
  (forall key idx, idx < 5 -> otp_wf (otp (handleKeyDown key idx s).1)) /\
  (forall pastedData, otp_wf (otp (handlePaste pastedData s).1)) /\
  (forall r, otp_wf (otp (handleResendSettled r s).1)) /\
  (forall value idx,
     value <> "" ->
     (forall c, is_digit c = true -> value <> String c EmptyString) ->
     handleChange value idx s = (s, [])) /\
  (forall idx, idx < 5 ->
     otp (handleChange "" idx s).1 = <[idx := str ""]> (otp s)).
Proof.
  pose proof (reachable_otp_wf s Hr) as Hwf.
  split; [exact Hwf|].
  split; [intros e He; now apply step_otp_wf|].
  split; [intros value idx Hidx; now apply handleChange_wf|].
  split; [intros key idx Hidx; now apply handleKeyDown_wf|].
  split; [intros pastedData; now apply handlePaste_wf|].
  split; [|split].
  - intros r. clear Hr. destruct s as [a t dr iv mo ie mm ex vf rs]. cbn [otp] in *.
    split_handlers; first [exact Hwf | exact empty_otp_wf].
  - intros value idx Hne Hnd. unfold handleChange.
    destruct (test_optional_digit value) eqn:Ht; [|reflexivity].
    apply test_optional_digit_iff in Ht as [->|(c & Hc & ->)]; [contradiction|].
    now destruct (Hnd c Hc).
  - intros idx Hidx. destruct Hwf as [Hlen _]. unfold handleChange, JS.set. cbn.
    rewrite Hlen. now rewrite decide_True by exact Hidx.
Qed.

Lemma otp_buffer_invariant_witness :
  reachable typed_second /\
  otp_wf (otp (handlePaste "12x45" typed_second).1).
Proof.
  pose proof typed_second_reachable as Hr.
  split; [exact Hr|].
  apply (otp_buffer_invariant demo_props _ Hr).
Defined.

(** C2 as stated fails for the empty value: it is not a single decimal
    digit, and typing it into slot 0 of ['1','2','3','4','5'] changes the
    buffer (the slot is cleared). *)
Lemma handleChange_empty_value_counterexample :
  reachable typed_12345 /\
  (forall c, "" <> String c EmptyString) /\
  otp (handleChange "" 0 typed_12345).1
  = [str ""; str "2"; str "3"; str "4"; str "5"] /\
  otp (handleChange "" 0 typed_12345).1 <> otp typed_12345.
Proof.
  split; [exact typed_12345_reachable|].
  repeat split; discriminate.
Qed.

(** * Further properties of the OTP widget *)

(** ** Typing *)

(** X1.  Typing a decimal digit into an existing slot stores it there and
    leaves the other slots and the rest of the state alone; focus moves to
    the next slot, except from the last one, where no focus call is made. *)
Theorem handleChange_digit (s : State) (c : ascii) (idx : nat)
    (Hc : is_digit c = true) (Hidx : idx < length (otp s)) :
  handleChange (String c EmptyString) idx s
  = (with_otp (<[idx := digit_slot c]> (otp s)) s,
     if (idx <? 4)%nat then [Focus (idx + 1)] else []) /\
  otp (handleChange (String c EmptyString) idx s).1 !! idx = Some (digit_slot c) /\
  (forall j, j <> idx ->
     otp (handleChange (String c EmptyString) idx s).1 !! j = otp s !! j).
Proof.
  assert (handleChange (String c EmptyString) idx s
          = (with_otp (<[idx := digit_slot c]> (otp s)) s,
             if (idx <? 4)%nat then [Focus (idx + 1)] else [])) as E.
  { unfold handleChange, JS.set. cbn [test_optional_digit]. rewrite Hc. cbn [negb].
    rewrite decide_True by exact Hidx.
    cbn [truthy String.eqb negb andb]. destruct (idx <? 4)%nat; reflexivity. }
  rewrite E. split; [reflexivity|]. cbn [fst with_otp setOtp otp]. split.
  - now apply list_lookup_insert_eq.
  - intros j Hj. apply list_lookup_insert_ne. congruence.
Qed.

Lemma handleChange_digit_witness :
  is_digit "7" = true /\ 4 < length (otp typed_second) /\
  (handleChange "7" 4 typed_second).2 = [] /\
  (handleChange "7" 0 typed_second).2 = [Focus 1].
Proof.
  split; [reflexivity|]. split; [vm_compute; lia|]. split.
  - destruct (handleChange_digit typed_second "7" 4 eq_refl ltac:(vm_compute; lia))
      as (E & _). now rewrite E.
  - destruct (handleChange_digit typed_second "7" 0 eq_refl ltac:(vm_compute; lia))
      as (E & _). now rewrite E.
Defined.

(** The code typed as five digits. *)
Lemma join_digit_slots (cs : list ascii) :
  JS.join (map digit_slot cs) = string_of_list_ascii cs.
Proof. induction cs as [|c cs IH]; cbn; [reflexivity | now rewrite <- IH]. Qed.

Lemma digit_slots_complete (cs : list ascii) : ~ has_empty_slot (map digit_slot cs).
Proof.
  intros [i Hi]. rewrite list_lookup_fmap in Hi.
  destruct (cs !! i); discriminate Hi.
Qed.

Lemma digit_slots_wf (cs : list ascii) :
  length cs = 5 -> Forall (fun c => is_digit c = true) cs -> otp_wf (map digit_slot cs).
Proof.
  intros Hl Hd. split; [now rewrite length_map|].
  apply Forall_fmap. eapply Forall_impl; [exact Hd|].
  intros c Hc. right. now exists c.
Qed.

(** With a complete buffer, an idle and unexpired widget that has a session
    reference sends the joined code. *)
Lemma handleVerify_sends (p : Props) (s : State) :
  otp_wf (otp s) -> ~ has_empty_slot (otp s) ->
  isVerifying s = false -> isOtpExpired s = false -> referenceId p <> "" ->
  (handleVerify p s).2 = [CallVerifyOTP (JS.join (otp s)) (referenceId p)] /\
  isVerifying (handleVerify p s).1 = true.
Proof.
  intros Hwf Hfull Hv Hx Hr. unfold handleVerify. rewrite Hv, Hx.
  apply (code_length_complete _ Hwf) in Hfull. apply Nat.eqb_eq in Hfull.
  rewrite Hfull. apply truthy_str in Hr. rewrite Hr. split; reflexivity.
Qed.

(** X2.  Typing five digits into the slots 0 to 4, one after the other,
    fills the buffer with them whatever it held before; Verify on an idle,
    unexpired widget with a session reference then calls [verifyOTP] once,
    with those five digits as the code. *)
Theorem type_code_then_verify (p : Props) (s : State) (c0 c1 c2 c3 c4 : ascii)
    (Hlen : length (otp s) = 5)
    (Hd : Forall (fun c => is_digit c = true) [c0; c1; c2; c3; c4]) :
  let typing :=
    [Change (String c0 EmptyString) 0; Change (String c1 EmptyString) 1;
     Change (String c2 EmptyString) 2; Change (String c3 EmptyString) 3;
     Change (String c4 EmptyString) 4] in
  let s' := run p typing s in
  s' = with_otp (map digit_slot [c0; c1; c2; c3; c4]) s /\
  (isVerifying s = false -> isOtpExpired s = false -> referenceId p <> "" ->
     (handleVerify p s').2
     = [CallVerifyOTP (string_of_list_ascii [c0; c1; c2; c3; c4]) (referenceId p)] /\
     isVerifying (handleVerify p s').1 = true).
Proof.
  cbv zeta.
  assert (run p
            [Change (String c0 EmptyString) 0; Change (String c1 EmptyString) 1;
             Change (String c2 EmptyString) 2; Change (String c3 EmptyString) 3;
             Change (String c4 EmptyString) 4] s
          = with_otp (map digit_slot [c0; c1; c2; c3; c4]) s) as E.
  { repeat match goal with
           | H : Forall _ (_ :: _) |- _ => apply Forall_cons in H; destruct H
           end.
    destruct s as [a t dr iv mo ie mm ex vf rs]. cbn [otp] in Hlen.
    destruct a as [|v0 [|v1 [|v2 [|v3 [|v4 [|v5 a]]]]]]; try discriminate Hlen.
    unfold run. cbn [foldl].
    unfold step. cbn [dispatch].
    unfold handleChange. cbn [test_optional_digit].
    repeat match goal with
           | H : is_digit _ = true |- _ => rewrite H; clear H
           end.
    reflexivity. }
  rewrite E. split; [reflexivity|].
  intros Hv Hx Hr.
  assert (otp_wf (otp (with_otp (map digit_slot [c0; c1; c2; c3; c4]) s))) as Hwf
    by (apply digit_slots_wf; [reflexivity | exact Hd]).
  destruct (handleVerify_sends p (with_otp (map digit_slot [c0; c1; c2; c3; c4]) s) Hwf)
    as (Hcall & Hflag); try assumption.
  - apply digit_slots_complete.
  - rewrite Hcall. cbn [with_otp setOtp fst otp]. rewrite join_digit_slots.
    split; [reflexivity | exact Hflag].
Qed.

Lemma type_code_then_verify_witness :
  length (otp typed_second) = 5 /\
  Forall (fun c => is_digit c = true) ["4"; "0"; "7"; "7"; "1"]%char /\
  (handleVerify demo_props
     (run demo_props [Change "4" 0; Change "0" 1; Change "7" 2; Change "7" 3; Change "1" 4]
        typed_second)).2
  = [CallVerifyOTP "40771" "ref-1"].
Proof.
  assert (Forall (fun c => is_digit c = true) ["4"; "0"; "7"; "7"; "1"]%char) as Hd
    by (repeat constructor).
  split; [reflexivity|]. split; [exact Hd|].
  apply (type_code_then_verify demo_props typed_second "4" "0" "7" "7" "1" eq_refl Hd);
    [reflexivity | reflexivity | discriminate].
Defined.

(** ** Paste, then Verify *)

Lemma string_of_list_ascii_of_string' (s : string) :
  string_of_list_ascii (list_ascii_of_string s) = s.
Proof. induction s as [|c s IH]; cbn; [reflexivity | now rewrite IH]. Qed.

Lemma append_cons (c : ascii) (s t : string) :
  String.append (String c s) t = String c (String.append s t).
Proof. reflexivity. Qed.

Lemma append_assoc (s t u : string) :
  String.append s (String.append t u) = String.append (String.append s t) u.
Proof.
  induction s as [|c s IH]; [reflexivity|]. rewrite !append_cons. now rewrite IH.
Qed.

Lemma join_app (a b : list JS.value) :
  JS.join (a ++ b) = String.append (JS.join a) (JS.join b).
Proof.
  induction a as [|v a IH]; [reflexivity|].
  change (JS.join ((v :: a) ++ b)) with (String.append (to_string v) (JS.join (a ++ b))).
  change (JS.join (v :: a)) with (String.append (to_string v) (JS.join a)).
  rewrite IH. apply append_assoc.
Qed.

Lemma join_empty_slots (n : nat) : JS.join (replicate n (str "")) = "".
Proof. induction n as [|n IH]; cbn; [reflexivity | exact IH]. Qed.

Lemma append_empty_r (s : string) : String.append s "" = s.
Proof. induction s as [|c s IH]; [reflexivity|]. rewrite append_cons. now rewrite IH. Qed.

(** X3.  After a paste that keeps at least one digit, the buffer depends
    on the pasted text only, reads back as exactly the kept digits, and a
    second paste of the same text changes nothing.  When five digits were
    kept, Verify on an idle, unexpired widget with a session reference
    calls [verifyOTP] with them. *)
Theorem paste_then_verify (p : Props) (pastedData : string) (s : State)
    (Hlen : length (otp s) = 5)
    (Hk : 0 < String.length (pasted_digits pastedData)) :
  let s' := (handlePaste pastedData s).1 in
  JS.join (otp s') = pasted_digits pastedData /\
  (forall s2, length (otp s2) = 5 -> otp (handlePaste pastedData s2).1 = otp s') /\
  handlePaste pastedData s' = handlePaste pastedData s /\
  (String.length (pasted_digits pastedData) = 5 ->
   isVerifying s = false -> isOtpExpired s = false -> referenceId p <> "" ->
     (handleVerify p s').2 = [CallVerifyOTP (pasted_digits pastedData) (referenceId p)]).
Proof.
  cbv zeta.
  assert (JS.join (otp (handlePaste pastedData s).1) = pasted_digits pastedData) as Hjoin.
  { rewrite (handlePaste_result _ _ Hlen Hk). cbn [fst with_otp setOtp otp].
    rewrite join_app, join_digit_slots, join_empty_slots, append_empty_r.
    apply string_of_list_ascii_of_string'. }
  assert (length (otp (handlePaste pastedData s).1) = 5) as Hlen'.
  { rewrite (handlePaste_result _ _ Hlen Hk). cbn [fst with_otp setOtp otp].
    pose proof (pasted_digits_length pastedData).
    rewrite length_app, length_map, length_replicate, length_list_ascii. lia. }
  split; [exact Hjoin|]. split; [|split].
  - intros s2 Hlen2.
    now rewrite (handlePaste_result _ _ Hlen2 Hk), (handlePaste_result _ _ Hlen Hk).
  - rewrite (handlePaste_result _ _ Hlen' Hk), (handlePaste_result _ _ Hlen Hk).
    now destruct s.
  - intros H5 Hv Hx Hr.
    assert (otp (handlePaste pastedData s).1
            = map digit_slot (list_ascii_of_string (pasted_digits pastedData))) as Ho.
    { rewrite (handlePaste_result _ _ Hlen Hk). cbn [fst with_otp setOtp otp].
      rewrite H5. cbn [replicate Nat.sub]. apply app_nil_r. }
    assert (isVerifying (handlePaste pastedData s).1 = false
            /\ isOtpExpired (handlePaste pastedData s).1 = false) as [Hv' Hx'].
    { rewrite (handlePaste_result _ _ Hlen Hk). now destruct s. }
    destruct (handleVerify_sends p (handlePaste pastedData s).1) as [Hcall _];
      try assumption.
    + rewrite Ho. apply digit_slots_wf.
      * now rewrite length_list_ascii.
      * apply pasted_digits_are_digits.
    + rewrite Ho. apply digit_slots_complete.
    + now rewrite Hcall, Hjoin.
Qed.

Lemma paste_then_verify_witness :
  length (otp typed_second) = 5 /\
  0 < String.length (pasted_digits "Code: 40-771.") /\
  (handleVerify demo_props (handlePaste "Code: 40-771." typed_second).1).2
  = [CallVerifyOTP "40771" "ref-1"].
Proof.
  split; [reflexivity|]. split; [vm_compute; lia|].
  apply (paste_then_verify demo_props "Code: 40-771." typed_second eq_refl
           ltac:(vm_compute; lia));
    [reflexivity | reflexivity | reflexivity | discriminate].
Defined.

(** ** Backspace and Delete keep the order of the digits *)

Section EnteredDigits.

Lemma entered_app (a b : list JS.value) : entered (a ++ b) = entered a ++ entered b.
Proof. apply filter_app. Qed.

Lemma entered_empty_slot : entered [str ""] = [].
Proof. reflexivity. Qed.

(** Blanking a slot and taking it out leave the same digits. *)
Lemma entered_blank (a : list JS.value) (i : nat) :
  i < length a -> entered (<[i := str ""]> a) = entered (delete i a).
Proof.
  intros Hi. rewrite insert_take_drop by exact Hi. rewrite delete_take_drop.
  rewrite (entered_app (take i a) (str "" :: drop (S i) a)), entered_app.
  reflexivity.
Qed.

Lemma entered_shifted (a : list JS.value) (i : nat) :
  entered (shifted a i) = entered (delete i a).
Proof.
  unfold shifted. rewrite entered_app, entered_empty_slot. apply app_nil_r.
Qed.

(** Taking out an empty slot loses no digit. *)
Lemma entered_delete_empty (a : list JS.value) (i : nat) :
  JS.get a i = str "" -> i < length a -> entered (delete i a) = entered a.
Proof.
  intros Hg Hi. destruct (lookup_lt_is_Some_2 a i Hi) as [v Hv].
  unfold JS.get in Hg. rewrite Hv in Hg. cbn in Hg. subst v.
  rewrite delete_take_drop. rewrite <- (take_drop_middle a i (str "") Hv) at 3.
  rewrite (entered_app (take i a) (str "" :: drop (S i) a)), entered_app.
  reflexivity.
Qed.

Lemma entered_tail (l : list JS.value) :
  entered (drop 1 l) `sublist_of` entered l /\
  length (entered l) <= S (length (entered (drop 1 l))).
Proof.
  destruct l as [|v l]; [split; [reflexivity | cbn; lia]|].
  change (drop 1 (v :: l)) with l. unfold entered. rewrite filter_cons.
  destruct (decide (filled v)) as [Hv|Hv].
  - split; [apply sublist_cons; reflexivity | cbn [length]; lia].
  - split; [reflexivity | lia].
Qed.

(** Taking out a slot loses at most its digit and keeps the others in order. *)
Lemma entered_delete_sublist (a : list JS.value) (i : nat) :
  entered (delete i a) `sublist_of` entered a /\
  length (entered a) <= S (length (entered (delete i a))).
Proof.
  assert (delete i a = take i a ++ drop 1 (drop i a)) as ->.
  { rewrite delete_take_drop, drop_drop. do 2 f_equal. lia. }
  destruct (entered_tail (drop i a)) as [Hs Hl].
  pose proof (take_drop i a) as E.
  assert (entered a = entered (take i a) ++ entered (drop i a)) as ->
    by (now rewrite <- entered_app, E).
  rewrite entered_app, !length_app. split.
  - apply sublist_app; [reflexivity | exact Hs].
  - lia.
Qed.

End EnteredDigits.

Lemma nothing_filled (l : list JS.value) :
  ~ Exists filled l -> Forall (fun v => v = str "") l.
Proof.
  intros H. induction l as [|v l IH]; [constructor|].
  constructor.
  - destruct (decide (v = str "")) as [E|E]; [exact E|].
    exfalso. apply H. now apply Exists_cons_hd.
  - apply IH. intros H'. apply H. now apply Exists_cons_tl.
Qed.

(** X4.  Backspace and Delete never add or reorder digits: the digits left
    in the buffer are those it held, in the same order, with at most one
    taken out.  Backspace on an empty slot with a digit to its right takes
    none out; Backspace or Delete on a filled slot takes out the digit of
    that slot; any other key leaves the buffer alone. *)
Theorem keys_keep_digit_order (s : State) (idx : nat) (key : string)
    (Hwf : otp_wf (otp s)) (Hidx : idx < 5) :
  let a' := otp (handleKeyDown key idx s).1 in
  entered a' `sublist_of` entered (otp s) /\
  length (entered (otp s)) <= S (length (entered a')) /\
  (key = "Backspace" -> JS.get (otp s) idx = str "" ->
   Exists filled (drop (S idx) (otp s)) ->
     entered a' = entered (otp s)) /\
  (key = "Backspace" \/ key = "Delete" -> filled (JS.get (otp s) idx) ->
     entered a' = entered (delete idx (otp s))) /\
  (key <> "Backspace" -> key <> "Delete" -> a' = otp s).
Proof.
  cbv zeta.
  destruct (key_handlers_closed_form s idx Hwf Hidx) as (B1 & B2 & B3 & B4 & D1 & D2).
  assert (length (otp s) = 5) as Hlen by apply Hwf.
  assert (idx < length (otp s)) as Hi by lia.
  pose proof (entered_delete_sublist (otp s) idx) as [Hsub Hle].
  destruct (decide (JS.get (otp s) idx = str "")) as [He|Hf];
    destruct (decide (Exists filled (drop (S idx) (otp s)))) as [Hx|Hx];
    try (apply nothing_filled in Hx);
    (destruct (String.eqb_spec key "Backspace") as [->|Hb];
     [|destruct (String.eqb_spec key "Delete") as [->|Hd]]).
  all: try (assert (handleKeyDown key idx s = (s, [])) as ->
              by (unfold handleKeyDown;
                  rewrite (proj2 (String.eqb_neq _ _) Hb), (proj2 (String.eqb_neq _ _) Hd);
                  reflexivity)).
  all: try rewrite (B1 Hf); try rewrite (B2 He Hx); try rewrite (D1 Hf);
    try rewrite (D2 He).
  all: cbn [fst with_otp setOtp otp];
    rewrite ?entered_shifted, ?entered_blank, ?(entered_delete_empty _ _ He Hi) by exact Hi.
  all: try (repeat split; first [ reflexivity | lia | assumption | congruence
                                | intros; congruence
                                | intros [?|?]; congruence ]).
  (* Backspace on an empty slot with nothing to its right *)
  all: destruct (Nat.eq_dec idx 0) as [E0|E0];
    [ rewrite (B4 He Hx E0) | rewrite (B3 He Hx ltac:(lia)) ];
    cbn [fst with_otp setOtp otp]; rewrite ?entered_blank by lia;
    pose proof (entered_delete_sublist (otp s) (idx - 1)) as [Hsub' Hle'];
    repeat split; first [ reflexivity | lia | assumption | congruence
                        | intros; congruence
                        | intros _ _ Hx'; exfalso; revert Hx';
                          apply Forall_Exists_neg; eapply Forall_impl; [exact Hx|];
                          intros v -> Hv; now apply Hv
                        | intros _ Hf'; exfalso; now apply Hf' ].
Qed.

Lemma keys_keep_digit_order_witness :
  otp_wf (otp typed_12345) /\ 2 < 5 /\
  entered (otp (handleKeyDown "Delete" 2 typed_12345).1)
  = [str "1"; str "2"; str "4"; str "5"].
Proof.
  split; [exact otp_12345_wf|]. split; [lia|].
  destruct (keys_keep_digit_order typed_12345 2 "Delete" otp_12345_wf ltac:(lia))
    as (_ & _ & _ & H & _).
  rewrite H; [reflexivity | now right | discriminate].
Defined.

(** ** The Verify button *)

Lemma isOtpComplete_iff (s : State) :
  isOtpComplete s = true <-> ~ has_empty_slot (otp s).
Proof.
  unfold isOtpComplete, has_empty_slot. rewrite forallb_forall. split.
  - intros H [i Hi]. apply list_elem_of_lookup_2, list_elem_of_In in Hi.
    specialize (H _ Hi). discriminate H.
  - intros H v Hv. unfold strict_neq, strict_eq. apply negb_true_iff, bool_decide_eq_false.
    intros ->. apply H. now apply list_elem_of_lookup, list_elem_of_In.
Qed.

(** X5.  The Verify button is enabled exactly when its label reads
    "Verify", that is when no verification is pending, the code has not
    expired and no slot is empty.  Pressing the enabled button never gives
    the "enter all 5 digits" answer: it calls [verifyOTP] with the joined
    code when there is a session reference, and shows the expired message
    when the reference is empty. *)
Theorem verify_button_enabled (p : Props) (s : State) (Hwf : otp_wf (otp s)) :
  (verifyDisabled s = false <-> verifyLabel s = "Verify") /\
  (verifyDisabled s = false <->
   isVerifying s = false /\ isOtpExpired s = false /\ ~ has_empty_slot (otp s)) /\
  (verifyDisabled s = false -> referenceId p <> "" ->
     (handleVerify p s).2 = [CallVerifyOTP (JS.join (otp s)) (referenceId p)]) /\
  (verifyDisabled s = false -> referenceId p = "" ->
     (handleVerify p s).2 = [] /\
     isError (handleVerify p s).1 = true /\
     modalMessage (handleVerify p s).1 = str msg_expired).
Proof.
  pose proof (isOtpComplete_iff s) as Hc.
  assert (verifyDisabled s = false <->
          isVerifying s = false /\ isOtpExpired s = false /\ ~ has_empty_slot (otp s)) as Hen.
  { unfold verifyDisabled. rewrite <- Hc.
    destruct (isVerifying s), (isOtpExpired s), (isOtpComplete s); cbn; intuition congruence. }
  split; [|split; [exact Hen|split]].
  - unfold verifyDisabled, verifyLabel.
    destruct (isVerifying s), (isOtpExpired s), (isOtpComplete s); cbn;
      split; first [reflexivity | discriminate].
  - intros Hd Hr. apply Hen in Hd as (Hv & Hx & Hfull).
    now apply handleVerify_sends.
  - intros Hd Hr. apply Hen in Hd as (Hv & Hx & Hfull).
    unfold handleVerify. rewrite Hv, Hx, Hr.
    apply (code_length_complete _ Hwf) in Hfull. apply Nat.eqb_eq in Hfull.
    rewrite Hfull. repeat split.
Qed.

Lemma verify_button_enabled_witness :
  otp_wf (otp typed_12345) /\ verifyLabel typed_12345 = "Verify".
Proof.
  split; [exact otp_12345_wf|].
  apply (verify_button_enabled demo_props typed_12345 otp_12345_wf). reflexivity.
Defined.

(** ** Resend *)

(** X6.  In every reachable state in which resend is unlocked the
    countdown is at zero and the code is marked expired; while the countdown
    is positive a click on resend does nothing.  A resend request goes out
    only from an unlocked state with no resend pending, and then exactly one
    goes out and the widget marks itself as resending; with the button
    disabled the click does nothing.  Resend is unlocked by the timer effect
    of the render with the countdown at zero. *)
Theorem resend_only_after_expiry (p : Props) (s : State) (Hr : reachable s) :
  (disabledResend s = false -> timer s = 0%Z /\ isOtpExpired s = true) /\
  ((0 < timer s)%Z -> handleResendOTP p s = (s, [])) /\
  (forall phone countryCode, In (CallSendOTP phone countryCode) (handleResendOTP p s).2 ->
     timer s = 0%Z /\ isOtpExpired s = true /\
     disabledResend s = false /\ isResending s = false) /\
  (disabledResend s = false -> isResending s = false ->
     exists phone countryCode,
       (handleResendOTP p s).2 = [CallSendOTP phone countryCode] /\
       isResending (handleResendOTP p s).1 = true) /\
  (resendDisabled s = true -> handleResendOTP p s = (s, [])) /\
  (timer s = 0%Z ->
     disabledResend (step p TimerEffect s).1 = false /\
     isOtpExpired (step p TimerEffect s).1 = true).
Proof.
  destruct (reachable_countdown_inv s Hr) as [_ H0].
  split; [exact H0|].
  unfold handleResendOTP, resendDisabled.
  split; [|split; [|split; [|split]]].
  - intros Hpos. destruct (disabledResend s) eqn:Hd; [reflexivity|].
    destruct (H0 eq_refl). lia.
  - intros phone countryCode.
    destruct (disabledResend s) eqn:Hd; cbn [orb]; [intros []|].
    destruct (isResending s) eqn:Hrs; [intros []|].
    intros _. destruct (H0 eq_refl). auto.
  - intros -> ->. cbn [orb]. eexists _, _. split; reflexivity.
  - intros ->. reflexivity.
  - intros Hz. destruct (timerEffect_result p s) as [_ H].
    destruct (H Hz) as (_ & Hx & Hd). split; assumption.
Qed.

Lemma resend_only_after_expiry_witness :
  reachable counted_down /\
  isResending (handleResendOTP demo_props counted_down).1 = true.
Proof.
  split; [exact counted_down_reachable|].
  destruct (resend_only_after_expiry demo_props counted_down counted_down_reachable)
    as (_ & _ & _ & H & _).
  destruct (H eq_refl eq_refl) as (phone & countryCode & _ & E).
  exact E.
Defined.

(** X7.  A resend that fails (the call rejects, or resolves without a
    reference) leaves the countdown, the resend lock, the expired flag and
    the buffer as they were and calls neither [onResendOTP] nor [focus]; it
    opens the error modal with the message of the error, or "Failed to
    resend OTP" when the error has none, or the missing-reference message,
    and clears the resending flag. *)
Theorem resend_failure_keeps_timer (p : Props) (s : State) (r : Settled)
    (Hfail : resend_succeeds (ResendSettled r) = false) :
  let s' := (handleResendSettled r s).1 in
  timer s' = timer s /\ disabledResend s' = disabledResend s /\
  isOtpExpired s' = isOtpExpired s /\ otp s' = otp s /\ isVerified s' = isVerified s /\
  (handleResendSettled r s).2 = [] /\
  isError s' = true /\ isModalOpen s' = true /\ isResending s' = false /\
  modalMessage s' =
    match r with
    | Resolved _ => str msg_no_reference
    | Rejected message => if truthy message then message else str msg_resend_failed
    end /\
  step p (ResendSettled r) s = handleResendSettled r s.
Proof.
  destruct s as [a t dr iv mo ie mm ex vf rs]. cbv zeta.
  unfold step, dispatch, handleResendSettled.
  destruct r as [v|m]; cbn [resend_succeeds] in Hfail; [rewrite Hfail|];
    cbn; repeat split.
Qed.

Lemma resend_failure_keeps_timer_witness :
  resend_succeeds (ResendSettled (Rejected undefined)) = false /\
  modalMessage (handleResendSettled (Rejected undefined) counted_down).1
  = str "Failed to resend OTP" /\
  timer (handleResendSettled (Rejected undefined) counted_down).1 = 0%Z.
Proof.
  split; [reflexivity|].
  destruct (resend_failure_keeps_timer demo_props counted_down (Rejected undefined) eq_refl)
    as (Ht & _ & _ & _ & _ & _ & _ & _ & _ & Hm & _).
  split; [exact Hm | exact Ht].
Defined.

Section Substrings.

Lemma substring_full (s : string) : String.substring 0 (String.length s) s = s.
Proof. induction s as [|c s IH]; cbn; [reflexivity | now rewrite IH]. Qed.

Lemma substring_split (n : nat) (s : string) :
  String.append (String.substring 0 n s) (String.substring n (String.length s - n) s) = s.
Proof.
  revert n. induction s as [|c s IH]; intros [|n]; try reflexivity.
  - rewrite Nat.sub_0_r, substring_full. reflexivity.
  - cbn [String.substring String.length Nat.sub]. rewrite append_cons. now rewrite IH.
Qed.

Lemma substring_prefix_length (n : nat) (s : string) :
  String.length (String.substring 0 n s) = Nat.min n (String.length s).
Proof.
  revert n. induction s as [|c s IH]; intros [|n]; cbn; try reflexivity.
  now rewrite IH.
Qed.

Lemma append_length (s t : string) :
  String.length (String.append s t) = String.length s + String.length t.
Proof. induction s as [|c s IH]; [reflexivity|]. rewrite append_cons. cbn. now rewrite IH. Qed.

End Substrings.

(** X8.  The resend request splits the phone number into a country code
    and a phone part that together give the number back; the phone part is
    the last 10 characters, or the whole number when it has at most 10, the
    country code then being empty. *)
Theorem resend_phone_split (p : Props) (s : State)
    (Hen : resendDisabled s = false) :
  exists phone countryCode,
    (handleResendOTP p s).2 = [CallSendOTP phone countryCode] /\
    String.append countryCode phone = phoneNumber p /\
    String.length phone = Nat.min 10 (String.length (phoneNumber p)) /\
    String.length countryCode = String.length (phoneNumber p) - 10.
Proof.
  unfold resendDisabled in Hen. unfold handleResendOTP. rewrite Hen.
  eexists _, _. split; [reflexivity|].
  unfold JS.substring, JS.substring_from.
  set (n := String.length (phoneNumber p)).
  replace (Z.to_nat (Z.of_nat n - 10) - Z.to_nat 0) with (n - 10) by lia.
  change (Z.to_nat 0) with 0.
  pose proof (substring_prefix_length (n - 10) (phoneNumber p)) as Hcc.
  fold n in Hcc. rewrite Nat.min_l in Hcc by lia.
  rewrite Nat2Z.id, Hcc.
  pose proof (substring_split (n - 10) (phoneNumber p)) as Hsplit. fold n in Hsplit.
  split; [exact Hsplit|]. split; [|reflexivity].
  apply (f_equal String.length) in Hsplit. rewrite append_length, Hcc in Hsplit.
  fold n in Hsplit. lia.
Qed.

Lemma resend_phone_split_witness :
  resendDisabled counted_down = false /\
  (handleResendOTP demo_props counted_down).2 = [CallSendOTP "4771234567" "+9"].
Proof.
  split; [reflexivity|].
  destruct (resend_phone_split demo_props counted_down eq_refl)
    as (phone & countryCode & E & _).
  reflexivity.
Defined.

(** X9.  A settled verification, whatever its result and whenever it
    arrives, leaves the buffer, the countdown, the resend lock and the
    resending flag as they are, never clears the expired flag, opens the
    modal and ends the pending state. *)
Theorem verify_settled_frame (p : Props) (s : State) (r : Settled) :
  let s' := (handleVerifySettled r s).1 in
  otp s' = otp s /\ timer s' = timer s /\ disabledResend s' = disabledResend s /\
  isResending s' = isResending s /\
  (isOtpExpired s = true -> isOtpExpired s' = true) /\
  isModalOpen s' = true /\ isVerifying s' = false /\
  step p (VerifySettled r) s = handleVerifySettled r s.
Proof.
  destruct s as [a t dr iv mo ie mm ex vf rs]. cbv zeta.
  unfold step, dispatch, handleVerifySettled.
  destruct r as [v|m];
    repeat match goal with
           | |- context [if ?b then _ else _] => destruct b
           end;
    cbn; repeat split; auto.
Qed.

(** ** The resend label *)

Lemma timerText_upto_60 (n : nat) (s : State) :
  n <= 60 -> timer s = Z.of_nat n -> timerText s = minutes_seconds (Z.of_nat n).
Proof.
  intros Hn Ht. unfold timerText. rewrite Ht. clear Ht s. revert Hn.
  do 61 (destruct n as [|n]; [intros _; vm_compute; reflexivity|]).
  lia.
Qed.

(** X10.  In every reachable state the countdown is shown as m:ss (one
    digit of minutes, two of seconds, from 1:00 down to 0:00).  While a
    resend is pending the resend button reads "Sending..."; otherwise it
    reads "Resend in m:ss" while the countdown is positive, and "Resend OTP"
    only with the countdown at zero.  At zero it still reads "Resend in
    0:00" in the render committed before the timer effect has unlocked
    resend, and "Resend OTP" once that effect has run. *)
Theorem resend_label_format (p : Props) (s : State) (Hr : reachable s) :
  timerText s = minutes_seconds (timer s) /\
  (isResending s = true -> resendLabel s = "Sending...") /\
  (isResending s = false -> (0 < timer s)%Z ->
     resendLabel s = String.append "Resend in " (minutes_seconds (timer s))) /\
  (resendLabel s = "Resend OTP" -> timer s = 0%Z) /\
  (isResending s = false -> timer s = 0%Z -> disabledResend s = true ->
     resendLabel s = "Resend in 0:00") /\
  (isResending s = false -> timer s = 0%Z ->
     resendLabel (step p TimerEffect s).1 = "Resend OTP").
Proof.
  destruct (reachable_countdown_inv s Hr) as [Ht H0].
  assert (timerText s = minutes_seconds (timer s)) as E.
  { rewrite (timerText_upto_60 (Z.to_nat (timer s)) s) by lia.
    f_equal. lia. }
  split; [exact E|]. unfold resendLabel.
  split; [|split; [|split; [|split]]].
  - intros ->. reflexivity.
  - intros -> Hpos. destruct (disabledResend s) eqn:Hd; [now rewrite E|].
    destruct (H0 eq_refl). lia.
  - destruct (isResending s); [discriminate|].
    destruct (disabledResend s) eqn:Hd; [discriminate|].
    intros _. now apply H0.
  - intros -> Hz ->. rewrite E, Hz. reflexivity.
  - intros Hrs Hz. destruct (timerEffect_result p s) as [_ H].
    destruct (H Hz) as (_ & _ & Hd). rewrite Hd.
    replace (isResending (step p TimerEffect s).1) with (isResending s);
      [now rewrite Hrs|].
    destruct s as [a t dr iv mo ie mm ex vf rs]. split_handlers; reflexivity.
Qed.

Lemma resend_label_format_witness :
  reachable typed_second /\ resendLabel typed_second = "Resend in 1:00" /\
  reachable last_tick /\ resendLabel last_tick = "Resend in 0:00" /\
  resendLabel (step demo_props TimerEffect last_tick).1 = "Resend OTP".
Proof.
  split; [exact typed_second_reachable|]. split.
  - destruct (resend_label_format demo_props typed_second typed_second_reachable)
      as (_ & _ & H & _).
    rewrite H; [reflexivity | reflexivity | reflexivity].
  - split; [exact last_tick_reachable|].
    destruct (resend_label_format demo_props last_tick last_tick_reachable)
      as (_ & _ & _ & _ & H1 & H2).
    split; [now apply H1 | now apply H2].
Defined.

(** * The sign-in page *)

(** ** The matcher decides the language of a pattern *)

Section RegexFacts.

Import Regex.

Lemma lang_seq_inv (r1 r2 : re) (s : text) :
  lang (Seq r1 r2) s <-> exists s1 s2, s = s1 ++ s2 /\ lang r1 s1 /\ lang r2 s2.
Proof.
  split.
  - inversion 1; subst. eauto.
  - intros (s1 & s2 & -> & H1 & H2). now constructor.
Qed.

Lemma lang_alt_inv (r1 r2 : re) (s : text) :
  lang (Alt r1 r2) s <-> lang r1 s \/ lang r2 s.
Proof.
  split.
  - inversion 1; subst; auto.
  - intros [H|H]; [now apply lang_alt_l | now apply lang_alt_r].
Qed.

Lemma lang_class_inv (f : code_unit -> bool) (s : text) :
  lang (Class f) s <-> exists c, s = [c] /\ f c = true.
Proof.
  split.
  - inversion 1; subst. eauto.
  - intros (c & -> & H). now constructor.
Qed.

Lemma nullable_lang (r : re) : nullable r = true <-> lang r [].
Proof.
  induction r as [| |f|r1 IH1 r2 IH2|r1 IH1 r2 IH2|r IH]; cbn.
  - split; [discriminate | inversion 1].
  - split; [constructor | reflexivity].
  - split; [discriminate | inversion 1].
  - rewrite andb_true_iff, IH1, IH2, lang_seq_inv. split.
    + intros [H1 H2]. now exists [], [].
    + intros (s1 & s2 & E & H1 & H2). symmetry in E.
      apply app_eq_nil in E as [-> ->]. now split.
  - rewrite orb_true_iff, IH1, IH2, lang_alt_inv. reflexivity.
  - split; [constructor | reflexivity].
Qed.

(** A non-empty word of [r*] starts with a non-empty word of [r]. *)
Lemma lang_star_cons (r : re) (c : code_unit) (s : text) :
  lang (Star r) (c :: s) ->
  exists s1 s2, s = s1 ++ s2 /\ lang r (c :: s1) /\ lang (Star r) s2.
Proof.
  intros H. remember (Star r) as r' eqn:Er. remember (c :: s) as w eqn:Ew.
  revert s Ew. induction H as [| | | | | |r0 s1 s2 H1 _ H2 IH2]; intros w' Ew;
    try discriminate Er; try discriminate Ew.
  injection Er as ->. destruct s1 as [|c1 s1].
  - cbn in Ew. now apply IH2.
  - cbn in Ew. injection Ew as -> <-. now exists s1, s2.
Qed.

Lemma lang_seq_cons (r1 r2 : re) (c : code_unit) (s : text) :
  lang (Seq r1 r2) (c :: s) <->
  (exists s1 s2, s = s1 ++ s2 /\ lang r1 (c :: s1) /\ lang r2 s2)
  \/ (lang r1 [] /\ lang r2 (c :: s)).
Proof.
  rewrite lang_seq_inv. split.
  - intros (s1 & s2 & E & H1 & H2). destruct s1 as [|c1 s1]; cbn in E.
    + right. subst s2. now split.
    + injection E as -> ->. left. now exists s1, s2.
  - intros [(s1 & s2 & -> & H1 & H2) | [H1 H2]].
    + now exists (c :: s1), s2.
    + now exists [], (c :: s).
Qed.

Lemma deriv_lang (r : re) (c : code_unit) (s : text) :
  lang (deriv c r) s <-> lang r (c :: s).
Proof.
  revert s. induction r as [| |f|r1 IH1 r2 IH2|r1 IH1 r2 IH2|r IH]; intros s; cbn.
  - split; inversion 1.
  - split; inversion 1.
  - rewrite lang_class_inv. destruct (f c) eqn:Hf; split.
    + inversion 1; subst. now exists c.
    + intros (d & E & _). injection E as Ec Es. subst. constructor.
    + inversion 1.
    + intros (d & E & Hd). injection E as Ec Es. subst. congruence.
  - assert (lang (Seq (deriv c r1) r2) s <->
            exists s1 s2, s = s1 ++ s2 /\ lang r1 (c :: s1) /\ lang r2 s2) as Hseq.
    { rewrite lang_seq_inv. split; intros (s1 & s2 & E & H1 & H2);
        exists s1, s2; (split; [exact E|]); (split; [now apply IH1 | exact H2]). }
    rewrite lang_seq_cons. destruct (nullable r1) eqn:Hn.
    + apply nullable_lang in Hn. rewrite lang_alt_inv, Hseq, IH2. tauto.
    + rewrite Hseq. split; [now left|]. intros [H|[H _]]; [exact H|].
      apply nullable_lang in H. congruence.
  - rewrite !lang_alt_inv, IH1, IH2. reflexivity.
  - rewrite lang_seq_inv. split.
    + intros (s1 & s2 & -> & H1 & H2).
      apply (lang_star_app _ (c :: s1) s2); [now apply IH | exact H2].
    + intros H. apply lang_star_cons in H as (s1 & s2 & -> & H1 & H2).
      exists s1, s2. split; [reflexivity|]. split; [now apply IH | exact H2].
Qed.

Lemma matches_lang (r : re) (s : text) : matches r s = true <-> lang r s.
Proof.
  revert r. induction s as [|c s IH]; intros r; cbn.
  - apply nullable_lang.
  - rewrite IH. apply deriv_lang.
Qed.

(** The words of [[f]*] and of [[f]+]. *)
Lemma lang_star_class (f : code_unit -> bool) (s : text) :
  lang (Star (Class f)) s <-> Forall (fun c => f c = true) s.
Proof.
  split.
  - intros H. remember (Star (Class f)) as r eqn:Er.
    induction H as [| | | | | |r0 s1 s2 H1 _ H2 IH2]; try discriminate Er.
    + constructor.
    + injection Er as ->. inversion H1; subst. constructor; [assumption | now apply IH2].
  - induction 1 as [|c s Hc _ IH]; [constructor|].
    apply (lang_star_app _ [c] s); [now constructor | exact IH].
Qed.

Lemma lang_plus_class (f : code_unit -> bool) (s : text) :
  lang (Plus (Class f)) s <-> s <> [] /\ Forall (fun c => f c = true) s.
Proof.
  unfold Plus. rewrite lang_seq_inv. split.
  - intros (s1 & s2 & -> & H1 & H2). apply lang_class_inv in H1 as (c & -> & Hc).
    apply lang_star_class in H2. split; [discriminate | now constructor].
  - intros [Hne Hall]. destruct s as [|c s]; [contradiction|].
    apply Forall_cons in Hall as [Hc Hall].
    exists [c], s. split; [reflexivity|].
    split; [now constructor | now apply lang_star_class].
Qed.

Lemma lang_chr (c : code_unit) (s : text) : lang (Chr c) s <-> s = [c].
Proof.
  unfold Chr. rewrite lang_class_inv. split.
  - intros (d & -> & Hd). apply N.eqb_eq in Hd. now subst.
  - intros ->. exists c. split; [reflexivity | apply N.eqb_refl].
Qed.

End RegexFacts.

(** ** The validation of the sign-in form *)

Section SignInFacts.

Import SignIn.

Lemma trimStart_split (s : text) :
  exists pre, s = pre ++ trimStart s /\ Forall (fun c => is_whitespace c = true) pre.
Proof.
  induction s as [|c s (pre & E & Hpre)]; [now exists []|].
  cbn [trimStart]. destruct (is_whitespace c) eqn:Hc.
  - exists (c :: pre). split; [cbn; now rewrite <- E | now constructor].
  - now exists [].
Qed.

Lemma trimEnd_blank (s : text) : trimEnd s = [] <-> blank s.
Proof.
  unfold blank.
  induction s as [|c s IH]; [split; [constructor | reflexivity]|].
  cbn [trimEnd]. rewrite Forall_cons.
  destruct (trimEnd s) as [|d t] eqn:E.
  - destruct (is_whitespace c) eqn:Hc.
    + split; [intros _; split; [reflexivity | now apply IH] | reflexivity].
    + split; [discriminate | intros [H _]; discriminate H].
  - split; [discriminate|]. intros [_ H]. apply IH in H. discriminate H.
Qed.

(** A string trims to nothing exactly when it is blank. *)
Lemma trim_blank (s : text) : trim s = [] <-> blank s.
Proof.
  unfold trim. rewrite trimEnd_blank. unfold blank.
  destruct (trimStart_split s) as (pre & E & Hpre).
  rewrite E at 2. rewrite Forall_app. tauto.
Qed.

Lemma is_empty_trim (s : text) : is_empty (trim s) = true <-> blank s.
Proof.
  rewrite <- trim_blank. destruct (trim s); cbn; split; congruence.
Qed.

Lemma email_test_iff (t : text) :
  Regex.test email_re t = true <-> email_shaped t.
Proof.
  unfold Regex.test, email_re, email_shaped. rewrite matches_lang.
  rewrite lang_seq_inv. split.
  - intros (a & r1 & E1 & Ha & H1). apply lang_plus_class in Ha as [Hane Ha].
    apply lang_seq_inv in H1 as (at' & r2 & E2 & Hat & H2). apply lang_chr in Hat. subst at'.
    apply lang_seq_inv in H2 as (b & r3 & E3 & Hb & H3). apply lang_plus_class in Hb as [Hbne Hb].
    apply lang_seq_inv in H3 as (dot' & c & E4 & Hdot & Hc). apply lang_chr in Hdot. subst dot'.
    apply lang_plus_class in Hc as [Hcne Hc].
    exists a, b, c. subst. cbn. repeat split; try assumption.
    rewrite !Forall_app. auto.
  - intros (a & b & c & E & Ha & Hb & Hc & Hall).
    rewrite !Forall_app in Hall. destruct Hall as (Fa & Fb & Fc).
    exists a, (at_sign :: b ++ dot :: c). split; [exact E|].
    split; [now apply lang_plus_class|].
    apply lang_seq_inv. exists [at_sign], (b ++ dot :: c). split; [reflexivity|].
    split; [now apply lang_chr|].
    apply lang_seq_inv. exists b, (dot :: c). split; [reflexivity|].
    split; [now apply lang_plus_class|].
    apply lang_seq_inv. exists [dot], c. split; [reflexivity|].
    split; [now apply lang_chr | now apply lang_plus_class].
Qed.

Lemma local_chars_plain (l : text) :
  Forall (fun x => local_char x = true) l ->
  filter (fun x => x = at_sign) l = [] /\ Forall (fun x => is_whitespace x = false) l.
Proof.
  induction 1 as [|x l Hx _ [IH1 IH2]]; [split; [reflexivity | constructor]|].
  unfold local_char in Hx. apply negb_true_iff, orb_false_iff in Hx as [Hw Hat].
  apply N.eqb_neq in Hat. split.
  - rewrite filter_cons_False by exact Hat. exact IH1.
  - now constructor.
Qed.

(** X11.  The email test of the sign-in form accepts exactly the strings
    of the form a@b.c with a, b and c non-empty and free of whitespace and
    of "@" (b and c may contain dots), whitespace being every code unit the
    class [\s] matches, those above U+00FF included; an accepted string
    therefore holds exactly one "@", and no whitespace. *)
Theorem email_pattern_accepts (t : text) :
  (Regex.test email_re t = true <-> email_shaped t) /\
  (Regex.test email_re t = true ->
     length (filter (fun x => x = at_sign) t) = 1 /\
     Forall (fun x => is_whitespace x = false) t) /\
  Forall (fun x => is_whitespace x = true)
    [0x9; 0xA; 0xB; 0xC; 0xD; 0x20; 0xA0; 0x1680; 0x2000; 0x2001; 0x2002; 0x2003; 0x2004;
     0x2005; 0x2006; 0x2007; 0x2008; 0x2009; 0x200A; 0x2028; 0x2029; 0x202F; 0x205F;
     0x3000; 0xFEFF]%N.
Proof.
  split; [apply email_test_iff|]. split.
  - intros H. apply email_test_iff in H as (a & b & c & -> & _ & _ & _ & Hall).
    rewrite !Forall_app in Hall. destruct Hall as (Fa & Fb & Fc).
    apply local_chars_plain in Fa as [Fa Wa].
    apply local_chars_plain in Fb as [Fb Wb].
    apply local_chars_plain in Fc as [Fc Wc].
    split.
    + rewrite filter_app, Fa, filter_cons_True by reflexivity.
      rewrite filter_app, Fb, filter_cons_False by discriminate. now rewrite Fc.
    + rewrite Forall_app, Forall_cons, Forall_app, Forall_cons. repeat split; assumption.
  - repeat constructor.
Qed.

(** X12.  [handleLogin] calls [login] exactly when the email, trimmed, has
    the form a@b.c and the password is not blank; the call carries the
    email and the password as typed (untrimmed) and the selected buyer
    type, and the page is marked loading.  Otherwise nothing is called: a
    blank email gets "Email is required", another malformed one "Enter a
    valid email address", a blank password "Password is required", and a
    field that passes has its error cleared.  Blank means made of code
    units that [trim] strips, such as U+3000, U+2003 or U+FEFF.  The
    storage and the typed values are never changed. *)
Theorem login_validation (w : World) :
  let s := page w in
  let w' := (handleLogin w).1 in
  let effs := (handleLogin w).2 in
  (email_shaped (trim (email s)) /\ ~ blank (password s) ->
     effs = [PreventDefault; CallLogin (email s) (password s) (userType s)] /\
     isLoading (page w') = true) /\
  (~ (email_shaped (trim (email s)) /\ ~ blank (password s)) ->
     effs = [PreventDefault] /\ isLoading (page w') = isLoading s) /\
  (blank (email s) -> emailError (page w') = msg_email_required) /\
  (~ blank (email s) -> ~ email_shaped (trim (email s)) ->
     emailError (page w') = msg_email_invalid) /\
  (email_shaped (trim (email s)) -> emailError (page w') = "") /\
  (blank (password s) -> passwordError (page w') = msg_password_required) /\
  (~ blank (password s) -> passwordError (page w') = "") /\
  storage w' = storage w /\ email (page w') = email s /\ password (page w') = password s.
Proof.
  destruct w as [s st]. cbv zeta. cbn [page storage].
  pose proof (is_empty_trim (email s)) as Hbe.
  pose proof (is_empty_trim (password s)) as Hbp.
  pose proof (email_test_iff (trim (email s))) as Hsh.
  assert (email_shaped (trim (email s)) -> ~ blank (email s)) as Hne.
  { intros (a & b & c & E & Ha & _) Hb. apply trim_blank in Hb. rewrite Hb in E.
    destruct a; [contradiction | discriminate E]. }
  unfold handleLogin, email_missing, email_malformed, password_missing. cbn [page].
  destruct (is_empty (trim (email s))) eqn:Ee;
    destruct (Regex.test email_re (trim (email s))) eqn:Et;
    destruct (is_empty (trim (password s))) eqn:Ep;
    destruct s; cbn; repeat split; try reflexivity; intros;
    repeat match goal with
           | H : _ /\ _ |- _ => destruct H
           end;
    try reflexivity; exfalso; intuition (try congruence; try discriminate).
Qed.

(** An email of ideographic spaces (U+3000) only is blank, and one with an
    em space (U+2003) inside is malformed: the login call is not made. *)
Lemma login_wide_space_example :
  let spaces := mkWorld (mkState "Retail" [0x3000; 0x3000]%N (of_ascii "s3cret")
                           false false false false false "" "") ∅ in
  let inside := mkWorld (mkState "Retail" (of_ascii "ann@" ++ [0x2003%N] ++ of_ascii "farm.lk")
                           (of_ascii "s3cret") false false false false false "" "") ∅ in
  (handleLogin spaces).2 = [PreventDefault] /\
  emailError (page (handleLogin spaces).1) = msg_email_required /\
  (handleLogin inside).2 = [PreventDefault] /\
  emailError (page (handleLogin inside).1) = msg_email_invalid.
Proof. cbv zeta. repeat split. Qed.

End SignInFacts.

(** ** After the login call *)

Section SignInOutcomes.

Import SignIn.

Lemma not_blank_nonempty (s : text) : ~ blank s -> is_empty s = false.
Proof. destruct s; [|reflexivity]. intros H. destruct H. constructor. Qed.

Lemma email_shaped_trim_nonempty (s : text) : email_shaped (trim s) -> is_empty s = false.
Proof.
  destruct s; [|reflexivity].
  intros (a & b & c & E & Ha & _). cbn in E. destruct a; [contradiction | discriminate E].
Qed.

(** X13.  Remember-me round trip.  After a login that resolved with a
    token and user data, made from a form that passed validation: if
    "Remember me" was ticked when the form was submitted, the storage holds
    the email and the password as typed, and a page mounted later starts
    with them and with the box ticked; if it was not, both entries are
    removed and a page mounted later starts empty.  No other entry of the
    storage is touched. *)
Theorem remember_me_round_trip (s0 : State) (w : World) (data : LoginData) (user : UserData)
    (Hshape : email_shaped (trim (email s0))) (Hpw : ~ blank (password s0))
    (Htok : truthy (token data) = true) (Hu : userData data = Some user) :
  let st' := storage (handleLoginSettled s0 (LoginResolved data) w).1 in
  (rememberMe s0 = true ->
     st' !! "rememberedEmail" = Some (email s0) /\
     st' !! "rememberedPassword" = Some (password s0) /\
     email (page (mounted st')) = email s0 /\
     password (page (mounted st')) = password s0 /\
     rememberMe (page (mounted st')) = true) /\
  (rememberMe s0 = false ->
     st' !! "rememberedEmail" = None /\ st' !! "rememberedPassword" = None /\
     page (mounted st') = initial) /\
  (forall k, k <> "rememberedEmail" -> k <> "rememberedPassword" ->
     st' !! k = storage w !! k).
Proof.
  apply email_shaped_trim_nonempty in Hshape. apply not_blank_nonempty in Hpw.
  destruct w as [s st]. cbv zeta. unfold handleLoginSettled. rewrite Htok, Hu.
  destruct (rememberMe s0) eqn:Hr;
    destruct (strict_eq (buyerType user) (str "Retail"));
    destruct (strict_eq (buyerType user) (str "Wholesale"));
    cbn [and_then on_page setShowSuccessPopup setIsLoading setItem removeItem emit skip
         fst snd page storage];
    (split; [|split]); try discriminate; intros;
    unfold mounted, loadRemembered; cbn [storage page];
    simplify_map_eq; cbn [truthy_item]; rewrite ?Hshape, ?Hpw; cbn; auto.
Qed.

Lemma remember_me_round_trip_witness :
  email_shaped (trim (of_ascii " ann@farm.lk ")) /\
  email (page (mounted (storage
    (handleLoginSettled
       (mkState "Retail" (of_ascii " ann@farm.lk ") (of_ascii "s3cret")
                false false true false false "" "")
       (LoginResolved (mkLoginData (str "tok") (Some (mkUserData (str "Retail")))))
       (mkWorld initial ∅)).1))) = of_ascii " ann@farm.lk ".
Proof.
  assert (email_shaped (trim (of_ascii " ann@farm.lk "))) as Hs.
  { apply email_test_iff. vm_compute. reflexivity. }
  split; [exact Hs|].
  apply (remember_me_round_trip
           (mkState "Retail" (of_ascii " ann@farm.lk ") (of_ascii "s3cret")
                    false false true false false "" "")
           (mkWorld initial ∅)
           (mkLoginData (str "tok") (Some (mkUserData (str "Retail"))))
           (mkUserData (str "Retail")) Hs).
  - intros H. apply trim_blank in H. discriminate H.
  - reflexivity.
  - reflexivity.
  - reflexivity.
Defined.

(** X14.  A rejected login changes neither the storage nor the typed
    values, calls nothing, shows the error popup and ends the loading
    state.  The popup reads "Incorrect password" when the error message is
    exactly "Wrong password." and "User not found" for every other error
    (a network failure included); it never reads "Incorrect email". *)
Theorem failed_login_popup (s0 : State) (w : World) (message : JS.value) :
  let w' := (handleLoginSettled s0 (LoginRejected message) w).1 in
  (handleLoginSettled s0 (LoginRejected message) w).2 = [] /\
  storage w' = storage w /\
  email (page w') = email (page w) /\ password (page w') = password (page w) /\
  showErrorPopup (page w') = true /\ isLoading (page w') = false /\
  showSuccessPopup (page w') = showSuccessPopup (page w) /\
  (message = str "Wrong password." -> errorDescription (page w') = msg_incorrect_password) /\
  (message <> str "Wrong password." -> errorDescription (page w') = msg_user_not_found) /\
  errorDescription (page w') <> msg_incorrect_email.
Proof.
  destruct w as [s st]. destruct s. cbv zeta.
  unfold handleLoginSettled, loginCatch, strict_eq.
  repeat case_bool_decide; cbn; repeat split; intros; try congruence; discriminate.
Qed.

(** X15.  A resolved login always shows the success popup and ends the
    loading state.  Without a token it does nothing else: no credentials
    are dispatched, the storage is untouched and no navigation happens.
    With a token and user data the credentials are dispatched once and the
    router goes to "/" for a Retail buyer, to "/wholesale/home" for a
    Wholesale buyer, and nowhere for any other buyer type.  With a token but
    no user data nothing is dispatched or stored and the error popup is
    shown as well. *)
Theorem resolved_login_outcome (s0 : State) (w : World) (data : LoginData) :
  let w' := (handleLoginSettled s0 (LoginResolved data) w).1 in
  let effs := (handleLoginSettled s0 (LoginResolved data) w).2 in
  showSuccessPopup (page w') = true /\ isLoading (page w') = false /\
  (truthy (token data) = false ->
     effs = [] /\ storage w' = storage w /\
     showErrorPopup (page w') = showErrorPopup (page w)) /\
  (forall user, truthy (token data) = true -> userData data = Some user ->
     (buyerType user = str "Retail" ->
        effs = [DispatchSetCredentials (token data) user; RouterPush "/"]) /\
     (buyerType user = str "Wholesale" ->
        effs = [DispatchSetCredentials (token data) user; RouterPush "/wholesale/home"]) /\
     (buyerType user <> str "Retail" -> buyerType user <> str "Wholesale" ->
        effs = [DispatchSetCredentials (token data) user])) /\
  (truthy (token data) = true -> userData data = None ->
     effs = [] /\ storage w' = storage w /\ showErrorPopup (page w') = true).
Proof.
  destruct w as [s st]. destruct s. cbv zeta. unfold handleLoginSettled.
  destruct (truthy (token data)) eqn:Ht; destruct (userData data) as [u|] eqn:Hu.
  all: try (destruct (rememberMe s0)).
  all: unfold strict_eq; repeat case_bool_decide.
  all: cbn; repeat split; intros; try discriminate; try congruence;
    repeat match goal with
           | H : Some _ = Some _ |- _ => injection H as <-
           end; try congruence; try reflexivity.
Qed.

End SignInOutcomes.

(** * The personal details form *)

Section ProfileFacts.

Import Profile.

(** Runs a handler of the form on a state given by its fields. *)
Ltac run_profile :=
  cbv beta iota zeta delta
    [onSubmit finishSubmit submitCatch loadProfile handleFileChange handleCancel afterCancel
     hideCancelPopup hideSuccess and_then skip emit reset setProfilePic setPreviewURL
     setShowSuccessPopup setShowErrorPopup setShowCancelSuccessPopup setErrorMessage
     setSuccessMessage setIsLoading resetValues profilePic previewURL showSuccessPopup
     showErrorPopup showCancelSuccessPopup errorMessage successMessage isLoading
     calls is_call resolved wants_password fst snd List.filter app negb].

(** X16.  Submitting without a token calls nothing: the form is not
    reset, the picture and the preview are kept, the error popup says that
    the user is not authenticated, the success popup is hidden and the
    loader is off. *)
Theorem submit_without_token (token : JS.value) (data : FormValues)
    (rUpdate : Result unit) (rPassword : Result JS.value) (rFetch : Result ProfileData)
    (s : State) (Htok : truthy token = false) :
  let s' := (onSubmit token data rUpdate rPassword rFetch s).1 in
  (onSubmit token data rUpdate rPassword rFetch s).2 = [] /\
  resetValues s' = resetValues s /\ profilePic s' = profilePic s /\ previewURL s' = previewURL s /\
  errorMessage s' = msg_not_authenticated /\
  showErrorPopup s' = true /\ showSuccessPopup s' = false /\ isLoading s' = false.
Proof.
  destruct s. cbv zeta. unfold onSubmit. rewrite Htok. repeat split.
Qed.

Lemma submit_without_token_witness :
  truthy undefined = false /\
  errorMessage (onSubmit undefined blank_form (Ok tt) (Ok undefined) (Err undefined) initial).1
  = "You are not authenticated. Please login first.".
Proof.
  split; [reflexivity|].
  apply (submit_without_token undefined blank_form (Ok tt) (Ok undefined) (Err undefined)
           initial eq_refl).
Defined.

(** X17.  A submission with a token first calls [updateProfile], with the
    six profile fields and the chosen picture.  [updatePassword] is called
    only if that call resolved and the three password fields are filled,
    and [fetchProfile] only if every call before it resolved.  The success
    popup is shown exactly when every call made resolved, the error popup
    exactly when one rejected, and the loader is off at the end. *)
Theorem submit_call_order (token : JS.value) (data : FormValues)
    (rUpdate : Result unit) (rPassword : Result JS.value) (rFetch : Result ProfileData)
    (s : State) (Htok : truthy token = true) :
  let s' := (onSubmit token data rUpdate rPassword rFetch s).1 in
  let made := calls (onSubmit token data rUpdate rPassword rFetch s).2 in
  let tok := to_string token in
  let update := CallUpdateProfile tok (payload_of data) (profilePic s) in
  let change :=
    CallUpdatePassword tok (to_string (currentPassword data)) (to_string (newPassword data))
      (to_string (confirmPassword data)) in
  let password_ok := negb (wants_password data) || resolved rPassword in
  (resolved rUpdate = false -> made = [update]) /\
  (resolved rUpdate = true -> wants_password data = false -> made = [update; CallFetchProfile tok]) /\
  (resolved rUpdate = true -> wants_password data = true -> resolved rPassword = false ->
     made = [update; change]) /\
  (resolved rUpdate = true -> wants_password data = true -> resolved rPassword = true ->
     made = [update; change; CallFetchProfile tok]) /\
  showSuccessPopup s' = resolved rUpdate && password_ok && resolved rFetch /\
  showErrorPopup s' = negb (showSuccessPopup s') /\
  isLoading s' = false.
Proof.
  destruct s. cbv zeta. unfold onSubmit. rewrite Htok.
  unfold wants_password.
  destruct rUpdate as [u|mu]; destruct rPassword as [mp|mp]; destruct rFetch as [d|mf];
    destruct (truthy (newPassword data)); destruct (truthy (currentPassword data));
    destruct (truthy (confirmPassword data));
    run_profile;
    repeat match goal with
           | |- context [if ?b then _ else _] => destruct b
           end;
    run_profile; repeat split; intros; try discriminate; reflexivity.
Qed.

Lemma submit_call_order_witness :
  truthy (str "tok") = true /\
  calls (onSubmit (str "tok")
           (mkForm "Mr" "Al" "Bo" "a@b.c" "+94" "771234567" (str "old") (str "New#1x") (str "New#1x"))
           (Ok tt) (Err undefined) (Ok (mkProfile undefined undefined undefined undefined
                                          undefined undefined undefined undefined))
           initial).2
  = [CallUpdateProfile "tok" (mkPayload "Mr" "Al" "Bo" "a@b.c" "+94" "771234567") None;
     CallUpdatePassword "tok" "old" "New#1x" "New#1x"].
Proof.
  split; [reflexivity|].
  apply (submit_call_order (str "tok")
           (mkForm "Mr" "Al" "Bo" "a@b.c" "+94" "771234567" (str "old") (str "New#1x") (str "New#1x"))
           (Ok tt) (Err undefined)
           (Ok (mkProfile undefined undefined undefined undefined
                  undefined undefined undefined undefined))
           initial eq_refl); reflexivity.
Defined.

(** The state a failed submission ends in. *)
Lemma submitCatch_result (message : JS.value) (s : State) :
  submitCatch message s
  = (mkState (resetValues s) (profilePic s) (previewURL s) false true (showCancelSuccessPopup s)
             (friendly_error message) (successMessage s) (isLoading s), []).
Proof.
  destruct s. unfold submitCatch, friendly_error.
  destruct (strict_eq message (str "Email already exists"));
    [|destruct (strict_eq message (str "Phone number already exists"))]; reflexivity.
Qed.

(** [onSubmit] with a token, by the results of its calls. *)
Lemma onSubmit_with_token (token : JS.value) (data : FormValues)
    (rUpdate : Result unit) (rPassword : Result JS.value) (rFetch : Result ProfileData)
    (s : State) :
  truthy token = true ->
  let cleared :=
    mkState (resetValues s) (profilePic s) (previewURL s) false false (showCancelSuccessPopup s)
            "" "" true in
  let update := CallUpdateProfile (to_string token) (payload_of data) (profilePic s) in
  let change :=
    CallUpdatePassword (to_string token) (to_string (currentPassword data))
      (to_string (newPassword data)) (to_string (confirmPassword data)) in
  let ending (r : State * list Effect) (before : list Effect) :=
    ((setIsLoading false r.1).1, before ++ r.2) in
  onSubmit token data rUpdate rPassword rFetch s =
  match rUpdate with
  | Err m => ending (submitCatch m cleared) [update]
  | Ok _ =>
      if wants_password data then
        match rPassword with
        | Err m => ending (submitCatch (str (or_else m msg_password_failed)) cleared)
                     [update; change]
        | Ok m => ending (finishSubmit (to_string token)
                            [msg_profile_updated; or_else m msg_password_updated] rFetch cleared)
                    [update; change]
        end
      else ending (finishSubmit (to_string token) [msg_profile_updated] rFetch cleared) [update]
  end.
Proof.
  intros Htok. destruct s. cbv zeta. unfold onSubmit, wants_password. rewrite Htok.
  cbn [negb profilePic].
  destruct rUpdate as [u|mu].
  - destruct (truthy (newPassword data) && truthy (currentPassword data)
              && truthy (confirmPassword data)).
    + destruct rPassword as [mp|mp].
      * unfold and_then at 1 2 3 4 5 6 7 8. cbn [setIsLoading setShowSuccessPopup
          setShowErrorPopup setErrorMessage setSuccessMessage emit fst snd resetValues profilePic
          previewURL showSuccessPopup showErrorPopup showCancelSuccessPopup errorMessage
          successMessage isLoading].
        destruct (finishSubmit _ _ _ _) as [s1 e1]. cbn [fst snd app]. now rewrite ?app_nil_r.
      * unfold and_then at 1 2 3 4 5 6 7 8. cbn [setIsLoading setShowSuccessPopup
          setShowErrorPopup setErrorMessage setSuccessMessage emit fst snd resetValues profilePic
          previewURL showSuccessPopup showErrorPopup showCancelSuccessPopup errorMessage
          successMessage isLoading].
        destruct (submitCatch _ _) as [s1 e1]. cbn [fst snd app]. now rewrite ?app_nil_r.
    + unfold and_then at 1 2 3 4 5 6 7. cbn [setIsLoading setShowSuccessPopup
        setShowErrorPopup setErrorMessage setSuccessMessage emit fst snd resetValues profilePic
        previewURL showSuccessPopup showErrorPopup showCancelSuccessPopup errorMessage
        successMessage isLoading].
      destruct (finishSubmit _ _ _ _) as [s1 e1]. cbn [fst snd app]. now rewrite ?app_nil_r.
  - unfold and_then at 1 2 3 4 5 6 7. cbn [setIsLoading setShowSuccessPopup
      setShowErrorPopup setErrorMessage setSuccessMessage emit fst snd resetValues profilePic
      previewURL showSuccessPopup showErrorPopup showCancelSuccessPopup errorMessage
      successMessage isLoading].
    destruct (submitCatch _ _) as [s1 e1]. cbn [fst snd app]. now rewrite ?app_nil_r.
Qed.

Lemma finishSubmit_result (tok : string) (msgs : list string) (rFetch : Result ProfileData)
    (s : State) :
  finishSubmit tok msgs rFetch s =
  match rFetch with
  | Err m => ((submitCatch m s).1, [CallFetchProfile tok])
  | Ok d =>
      (mkState (form_of_profile d) (profilePic s)
               (if truthy (p_profileImageURL d) || truthy (p_image d)
                then first_url (p_profileImageURL d) (p_image d) else previewURL s)
               true (showErrorPopup s) (showCancelSuccessPopup s) (errorMessage s)
               (join_space msgs) (isLoading s),
       [CallFetchProfile tok; SetTimeout hideSuccess 5000])
  end.
Proof.
  destruct s. unfold finishSubmit. destruct rFetch as [d|m].
  - destruct (truthy (p_profileImageURL d) || truthy (p_image d)); reflexivity.
  - unfold and_then, emit. rewrite submitCatch_result. reflexivity.
Qed.

(** X18.  A submission in which a call rejects resets nothing: [reset] is
    not called, the chosen picture and the preview stay, no success message
    is set and no timer is started.  The error popup shows the message of the
    rejecting call, with two messages of the server replaced by friendlier
    texts and "Something went wrong" for an error without message; a
    rejected password change without message shows "Failed to update
    password." *)
Theorem submit_failure (token : JS.value) (data : FormValues)
    (rUpdate : Result unit) (rPassword : Result JS.value) (rFetch : Result ProfileData)
    (s : State) (Htok : truthy token = true)
    (Hfail : resolved rUpdate && (negb (wants_password data) || resolved rPassword)
             && resolved rFetch = false) :
  let s' := (onSubmit token data rUpdate rPassword rFetch s).1 in
  resetValues s' = resetValues s /\ profilePic s' = profilePic s /\ previewURL s' = previewURL s /\
  successMessage s' = "" /\ showSuccessPopup s' = false /\ showErrorPopup s' = true /\
  isLoading s' = false /\
  calls (onSubmit token data rUpdate rPassword rFetch s).2
  = (onSubmit token data rUpdate rPassword rFetch s).2 /\
  (forall m, rUpdate = Err m -> errorMessage s' = friendly_error m) /\
  (forall m, resolved rUpdate = true -> wants_password data = true -> rPassword = Err m ->
     errorMessage s' = friendly_error (str (or_else m msg_password_failed))) /\
  (forall m, resolved rUpdate = true ->
     negb (wants_password data) || resolved rPassword = true -> rFetch = Err m ->
     errorMessage s' = friendly_error m) /\
  friendly_error (str "Email already exists") = msg_email_in_use /\
  friendly_error (str "Phone number already exists") = msg_phone_in_use /\
  friendly_error undefined = msg_something_wrong.
Proof.
  cbv zeta. rewrite (onSubmit_with_token _ _ _ _ _ _ Htok). cbv zeta.
  destruct s.
  destruct rUpdate as [u|mu]; [destruct (wants_password data);
    [destruct rPassword as [mp|mp]|]|];
    rewrite ?finishSubmit_result, ?submitCatch_result;
    try (destruct rFetch as [d|mf]; [discriminate Hfail|]);
    rewrite ?submitCatch_result;
    cbn; repeat split; intros; try discriminate; try congruence.
Qed.

Lemma submit_failure_witness :
  truthy (str "tok") = true /\
  errorMessage (onSubmit (str "tok") blank_form (Err (str "Email already exists"))
                  (Ok undefined) (Err undefined) initial).1
  = "This email is already in use. Please use a different email.".
Proof.
  split; [reflexivity|].
  destruct (submit_failure (str "tok") blank_form (Err (str "Email already exists"))
              (Ok undefined) (Err undefined) initial eq_refl eq_refl)
    as (_ & _ & _ & _ & _ & _ & _ & _ & H & _).
  exact (H (str "Email already exists") eq_refl).
Defined.

(** X19.  A submission in which every call resolves calls [reset] with the
    six fields of the fetched profile, a missing field as the empty string,
    and with [undefined] for the three password fields (what the password
    inputs hold after that is up to react-hook-form and is not stated).  It
    shows "Profile updated successfully!", followed when the password was
    changed by the message of the server or "Password updated
    successfully!", and starts the 5 s timer that hides the popup.  The
    preview takes [profileImageURL], else [image], and is kept when the
    profile has neither; the chosen picture stays selected. *)
Theorem submit_success (token : JS.value) (data : FormValues)
    (u : unit) (rPassword : Result JS.value) (d : ProfileData) (s : State)
    (Htok : truthy token = true)
    (Hpw : negb (wants_password data) || resolved rPassword = true) :
  let s' := (onSubmit token data (Ok u) rPassword (Ok d) s).1 in
  let effs := (onSubmit token data (Ok u) rPassword (Ok d) s).2 in
  resetValues s' = form_of_profile d /\
  currentPassword (resetValues s') = undefined /\ newPassword (resetValues s') = undefined /\
  confirmPassword (resetValues s') = undefined /\
  (title (resetValues s') = if truthy (p_title d) then to_string (p_title d) else "") /\
  profilePic s' = profilePic s /\
  (truthy (p_profileImageURL d) = true ->
     previewURL s' = Some (to_string (p_profileImageURL d))) /\
  (truthy (p_profileImageURL d) = false -> truthy (p_image d) = true ->
     previewURL s' = Some (to_string (p_image d))) /\
  (truthy (p_profileImageURL d) = false -> truthy (p_image d) = false ->
     previewURL s' = previewURL s) /\
  showSuccessPopup s' = true /\ showErrorPopup s' = false /\ errorMessage s' = "" /\
  isLoading s' = false /\
  (wants_password data = false -> successMessage s' = msg_profile_updated) /\
  (forall m, wants_password data = true -> rPassword = Ok m ->
     successMessage s' =
     String.append msg_profile_updated
       (String.append " " (if truthy m then to_string m else msg_password_updated))) /\
  last effs = Some (SetTimeout hideSuccess 5000) /\
  showSuccessPopup (hideSuccess s').1 = false.
Proof.
  cbv zeta. rewrite (onSubmit_with_token _ _ _ _ _ _ Htok). cbv zeta.
  destruct s.
  destruct (wants_password data); [destruct rPassword as [mp|mp]; [|discriminate Hpw]|];
    rewrite finishSubmit_result;
    destruct (truthy (p_profileImageURL d)) eqn:Hu; destruct (truthy (p_image d)) eqn:Hi;
    cbn; unfold first_url; rewrite ?Hu, ?Hi;
    repeat split; intros; try discriminate; try congruence;
    match goal with
    | H : Ok _ = Ok _ |- _ => injection H as <-; reflexivity
    end.
Qed.

Lemma submit_success_witness :
  truthy (str "tok") = true /\
  successMessage
    (onSubmit (str "tok")
       (mkForm "Mr" "Al" "Bo" "a@b.c" "+94" "771234567" (str "old") (str "New#1x") (str "New#1x"))
       (Ok tt) (Ok undefined)
       (Ok (mkProfile (str "Mr") undefined undefined undefined undefined undefined undefined
              undefined))
       initial).1
  = "Profile updated successfully! Password updated successfully!".
Proof.
  split; [reflexivity|].
  destruct (submit_success (str "tok")
              (mkForm "Mr" "Al" "Bo" "a@b.c" "+94" "771234567" (str "old") (str "New#1x")
                 (str "New#1x"))
              tt (Ok undefined)
              (mkProfile (str "Mr") undefined undefined undefined undefined undefined undefined
                 undefined)
              initial eq_refl eq_refl)
    as (_ & _ & _ & _ & _ & _ & _ & _ & _ & _ & _ & _ & _ & _ & H & _).
  exact (H undefined eq_refl eq_refl).
Defined.

(** X20.  On mount nothing is fetched without a token and the state is
    left alone.  With a token exactly one [fetchProfile] call is made and
    the loader is off afterwards: a resolved call resets the form to the
    six fields of the profile and takes [image], else [profileImageURL],
    else nothing, as the preview (where a successful submission prefers
    [profileImageURL]); a rejected call does not reset the form, keeps the
    preview and shows the message of the error, or "Failed to fetch
    profile". *)
Theorem load_profile_outcomes (token : JS.value) (rFetch : Result ProfileData) (s : State) :
  let s' := (loadProfile token rFetch s).1 in
  let effs := (loadProfile token rFetch s).2 in
  (truthy token = false -> loadProfile token rFetch s = (s, [])) /\
  (truthy token = true -> effs = [CallFetchProfile (to_string token)] /\ isLoading s' = false) /\
  (forall d, truthy token = true -> rFetch = Ok d ->
     resetValues s' = form_of_profile d /\
     previewURL s' = first_url (p_image d) (p_profileImageURL d) /\
     (truthy (p_image d) = true -> previewURL s' = Some (to_string (p_image d))) /\
     (truthy (p_image d) = true -> truthy (p_profileImageURL d) = true ->
      forall tok data u rP s2, truthy tok = true -> wants_password data = false ->
        previewURL (onSubmit tok data (Ok u) rP (Ok d) s2).1
        = Some (to_string (p_profileImageURL d))) /\
     showErrorPopup s' = showErrorPopup s /\ showSuccessPopup s' = showSuccessPopup s) /\
  (forall m, truthy token = true -> rFetch = Err m ->
     resetValues s' = resetValues s /\ previewURL s' = previewURL s /\
     errorMessage s' = (if truthy m then to_string m else "Failed to fetch profile") /\
     showErrorPopup s' = true /\ showSuccessPopup s' = false).
Proof.
  cbv zeta. unfold loadProfile.
  destruct (truthy token) eqn:Ht; cbn [negb].
  - split; [discriminate|]. destruct s.
    destruct rFetch as [d|m]; (split; [intros _; split; reflexivity|]); split;
      try (intros ? _ E; discriminate E).
    + intros d' _ E. injection E as <-.
      split; [reflexivity|]. split; [reflexivity|]. split.
      * intros Hi. cbn. unfold first_url. now rewrite Hi.
      * split; [|split; reflexivity].
        intros Hi Hu tok data u rP s2 Htok Hw.
        rewrite (onSubmit_with_token _ _ _ _ _ _ Htok). cbv zeta. rewrite Hw.
        rewrite finishSubmit_result. unfold first_url. rewrite Hu. reflexivity.
    + intros m' _ E. injection E as <-. cbn. repeat split.
  - split; [reflexivity|]. repeat split; intros; discriminate.
Qed.

(** X21.  A chosen file is kept exactly when it has at most 15 * 1024 *
    1024 bytes: it then becomes the picture to upload and its object URL
    the preview, and no popup changes.  A larger file replaces neither the
    picture nor the preview; the error popup is shown, the success popup
    hidden and the file input emptied.  Without a file nothing happens.
    The form is never reset. *)
Theorem file_size_limit (file : option File) (s : State) :
  let s' := (handleFileChange file s).1 in
  let effs := (handleFileChange file s).2 in
  (file = None -> handleFileChange file s = (s, [])) /\
  (forall f, file = Some f -> (size f <= 15728640)%Z ->
     profilePic s' = Some f /\ previewURL s' = Some (objectURL f) /\ effs = [] /\
     showErrorPopup s' = showErrorPopup s /\ errorMessage s' = errorMessage s) /\
  (forall f, file = Some f -> (15728640 < size f)%Z ->
     profilePic s' = profilePic s /\ previewURL s' = previewURL s /\
     effs = [ClearFileInput] /\
     showErrorPopup s' = true /\ showSuccessPopup s' = false /\
     errorMessage s' = too_large_message (size f)) /\
  resetValues s' = resetValues s.
Proof.
  cbv zeta. destruct s. unfold handleFileChange.
  destruct file as [f|].
  - change maxSizeInBytes with 15728640%Z.
    destruct (Z.ltb_spec 15728640 (size f)); cbn;
      repeat split; intros; try discriminate;
      repeat match goal with
             | H : Some _ = Some _ |- _ => injection H as <-
             end; try reflexivity; lia.
  - repeat split; intros; discriminate.
Qed.

(** X22.  For a list of options whose labels are their values, none of
    them empty (the title list and the phone-code list), the dropdown shows
    the form value when it is one of the options and the placeholder
    otherwise, also for a non-empty value that is no option. *)
Theorem dropdown_trigger_text (value placeholder : string) (options : list (string * string))
    (Hopts : Forall (fun opt => opt.2 = opt.1 /\ opt.1 <> "") options) :
  (In value (map fst options) -> triggerText value options placeholder = value) /\
  (~ In value (map fst options) -> triggerText value options placeholder = placeholder) /\
  Forall (fun opt => opt.2 = opt.1 /\ opt.1 <> "") titleOptions /\
  Forall (fun opt => opt.2 = opt.1 /\ opt.1 <> "") phoneCodeOptions.
Proof.
  assert (forall l : list (string * string),
            Forall (fun opt => opt.2 = opt.1 /\ opt.1 <> "") l ->
            match List.find (fun opt => String.eqb opt.1 value) l with
            | Some opt => opt.2 = value /\ value <> "" /\ In value (map fst l)
            | None => ~ In value (map fst l)
            end) as Hfind.
  { induction 1 as [|[v lab] l [Hl Hv] _ IH]; cbn; [tauto|].
    cbn in Hl, Hv. destruct (String.eqb_spec v value) as [->|Hne].
    - cbn. auto.
    - destruct (List.find _ l); [destruct IH as (? & ? & ?); auto|].
      intros [E|E]; [congruence | contradiction]. }
  specialize (Hfind options Hopts).
  split; [|split; [|split]].
  - intros Hin. unfold triggerText.
    destruct (List.find _ options) as [opt|]; [|contradiction].
    destruct Hfind as (E2 & Hne & _). rewrite E2.
    apply String.eqb_neq in Hne. cbn. now rewrite Hne.
  - intros Hnin. unfold triggerText.
    destruct (List.find _ options) as [opt|]; [destruct Hfind as (_ & _ & H); contradiction|].
    now destruct (truthy (str value)).
  - repeat constructor; discriminate.
  - repeat constructor; discriminate.
Qed.

Lemma dropdown_trigger_text_witness :
  Forall (fun opt => opt.2 = opt.1 /\ opt.1 <> "") titleOptions /\
  triggerText "Mrs" titleOptions "Select Title" = "Mrs" /\
  triggerText "Dr" titleOptions "Select Title" = "Select Title".
Proof.
  assert (Forall (fun opt => opt.2 = opt.1 /\ opt.1 <> "") titleOptions) as H
    by (repeat constructor; discriminate).
  split; [exact H|].
  destruct (dropdown_trigger_text "Mrs" "Select Title" titleOptions H) as (H1 & _).
  destruct (dropdown_trigger_text "Dr" "Select Title" titleOptions H) as (_ & H2 & _).
  split.
  - apply H1. cbn. tauto.
  - apply H2. cbn. intros [E|[E|[E|[E|[]]]]]; discriminate E.
Defined.

End ProfileFacts.

(** * The package slider *)

Section SliderFacts.

Import Slider.

Variable Items : Type.

(** X23.  Clicking the selected package again requests nothing and changes
    nothing.  Clicking another package selects it, turns the loading flag
    on, clears the error and requests its details once, the details held
    before staying in place until the response.  A resolved response stores
    the items and a rejected one stores the message of the error (or
    "Failed to load package details") as the card's error and as the text
    of the error popup, which it opens; either ends the loading state and
    keeps the selection, whichever package is selected by then. *)
Theorem package_click_and_response (packageId : Z) (r : Settled Items) (s : Slider.State Items) :
  let s1 := (handlePackageClick Items packageId s).1 in
  let s2 := (handlePackageSettled Items r s).1 in
  (selectedPackageId Items s = Some packageId ->
     handlePackageClick Items packageId s = (s, [])) /\
  (selectedPackageId Items s <> Some packageId ->
     (handlePackageClick Items packageId s).2 = [CallGetPackageDetails packageId] /\
     selectedPackageId Items s1 = Some packageId /\ isLoadingDetails Items s1 = true /\
     errorDetails Items s1 = None /\ packageDetails Items s1 = packageDetails Items s /\
     showError Items s1 = showError Items s /\ showSuccess Items s1 = showSuccess Items s) /\
  (handlePackageSettled Items r s).2 = [] /\
  isLoadingDetails Items s2 = false /\
  selectedPackageId Items s2 = selectedPackageId Items s /\
  (forall items, r = Resolved Items items ->
     packageDetails Items s2 = items /\ errorDetails Items s2 = errorDetails Items s /\
     showError Items s2 = showError Items s) /\
  (forall m, r = Rejected Items m ->
     let text := if truthy m then to_string m else "Failed to load package details" in
     errorDetails Items s2 = Some text /\ errorMessage Items s2 = text /\
     showError Items s2 = true /\ packageDetails Items s2 = packageDetails Items s).
Proof.
  destruct s. cbv zeta. unfold handlePackageClick, is_selected. cbn [selectedPackageId].
  split; [intros ->; now rewrite bool_decide_eq_true_2|].
  split; [intros Hne; rewrite bool_decide_eq_false_2 by exact Hne; repeat split|].
  destruct r as [items|m]; cbn; repeat split; intros; try discriminate;
    match goal with
    | H : _ = _ |- _ => injection H as <-
    end; repeat split.
Qed.

(** X24.  A successful add-to-cart shows its message, and closes the
    popup: no package is selected any more and the details and the card
    error are dropped, so that no card is handed details and the mobile
    modal is gone.  A failed one shows its message in the error popup and
    leaves the selection and the details as they are.  Neither requests
    anything. *)
Theorem add_to_cart_outcomes (message : string) (isMobile : bool) (ids : list Z) (s : Slider.State Items) :
  let s1 := (handlePackageAddToCartSuccess Items message s).1 in
  let s2 := (handlePackageAddToCartError Items message s).1 in
  (handlePackageAddToCartSuccess Items message s).2 = [] /\
  successMessage Items s1 = message /\ showSuccess Items s1 = true /\
  selectedPackageId Items s1 = None /\ packageDetails Items s1 = None /\
  errorDetails Items s1 = None /\
  Forall (fun c => card_isSelected Items c = false /\ card_packageDetails Items c = None)
    (cards Items isMobile s1 ids) /\
  mobileModalShown Items isMobile s1 = false /\
  (handlePackageAddToCartError Items message s).2 = [] /\
  errorMessage Items s2 = message /\ showError Items s2 = true /\
  selectedPackageId Items s2 = selectedPackageId Items s /\
  packageDetails Items s2 = packageDetails Items s /\
  cards Items isMobile s2 ids = cards Items isMobile s ids.
Proof.
  destruct s. cbv zeta. cbn.
  repeat split.
  - apply Forall_fmap, Forall_forall. intros x _. cbn. split; reflexivity.
  - now destruct isMobile.
Qed.

Lemma count_selected (isMobile : bool) (s : Slider.State Items) (ids : list Z) :
  NoDup ids ->
  length (filter (fun c => card_isSelected Items c = true) (cards Items isMobile s ids)) <= 1 /\
  (forall n, selectedPackageId Items s = Some n -> ~ In n ids ->
     filter (fun c => card_isSelected Items c = true) (cards Items isMobile s ids) = []).
Proof.
  induction 1 as [|x l Hx _ [IH1 IH2]]; [split; [cbn; lia | reflexivity]|].
  unfold cards in *. cbn [map]. split.
  - destruct (card_isSelected Items (cardProps Items isMobile s x)) eqn:E.
    + rewrite filter_cons_True by exact E. cbn [length].
      cbn in E. apply andb_true_iff in E as [E _]. apply bool_decide_eq_true_1 in E.
      rewrite (IH2 x E); [cbn; lia|]. now rewrite <- list_elem_of_In.
    + rewrite filter_cons_False by (rewrite E; discriminate). exact IH1.
  - intros n Hn Hnin. rewrite filter_cons_False.
    + apply (IH2 n Hn). intros H. apply Hnin. now right.
    + cbn. unfold is_selected. rewrite bool_decide_eq_false_2; [discriminate|].
      rewrite Hn. intros E. injection E as <-. apply Hnin. now left.
Qed.

(** X25.  Among the cards of packages with distinct ids at most one is
    shown selected, and none on the mobile layout.  A card is handed the
    details, the loading flag and the error only if its package is the
    selected one.  The mobile modal is rendered exactly when the layout is
    mobile and a package with a non-zero id is selected. *)
Theorem cards_follow_selection (isMobile : bool) (ids : list Z) (s : Slider.State Items)
    (Hids : NoDup ids) :
  length (filter (fun c => card_isSelected Items c = true) (cards Items isMobile s ids)) <= 1 /\
  (isMobile = true ->
     Forall (fun c => card_isSelected Items c = false) (cards Items isMobile s ids)) /\
  Forall (fun c =>
            selectedPackageId Items s <> Some (card_id Items c) ->
            card_isSelected Items c = false /\ card_packageDetails Items c = None /\
            card_isLoadingDetails Items c = false /\ card_errorDetails Items c = None)
    (cards Items isMobile s ids) /\
  Forall (fun c =>
            selectedPackageId Items s = Some (card_id Items c) ->
            card_isSelected Items c = negb isMobile /\
            card_packageDetails Items c = packageDetails Items s /\
            card_isLoadingDetails Items c = isLoadingDetails Items s /\
            card_errorDetails Items c = errorDetails Items s)
    (cards Items isMobile s ids) /\
  (mobileModalShown Items isMobile s = true <->
   isMobile = true /\ exists n, selectedPackageId Items s = Some n /\ n <> 0%Z).
Proof.
  split; [now apply count_selected|].
  split; [|split; [|split]].
  - intros ->. apply Forall_fmap, Forall_forall. intros x _. cbn. apply andb_false_r.
  - apply Forall_fmap, Forall_forall. intros x _. cbn. intros Hne.
    unfold is_selected. rewrite bool_decide_eq_false_2 by exact Hne.
    rewrite andb_false_r. repeat split.
  - apply Forall_fmap, Forall_forall. intros x _. cbn. intros He.
    unfold is_selected. rewrite bool_decide_eq_true_2 by exact He.
    rewrite andb_true_r. repeat split.
  - unfold mobileModalShown. destruct isMobile; cbn.
    + destruct (selectedPackageId Items s) as [n|].
      * rewrite negb_true_iff, Z.eqb_neq. split.
        -- intros Hn. split; [reflexivity|]. now exists n.
        -- intros [_ (m & E & Hm)]. now injection E as ->.
      * split; [discriminate|]. intros [_ (m & E & _)]. discriminate E.
    + split; [discriminate|]. intros [E _]. discriminate E.
Qed.

End SliderFacts.

Lemma cards_follow_selection_witness :
  NoDup [3; 0; 7]%Z /\
  length (filter (fun c => Slider.card_isSelected nat c = true)
            (Slider.cards nat false
               (Slider.handlePackageClick nat 7 (Slider.initial nat)).1 [3; 0; 7]%Z)) <= 1.
Proof.
  assert (NoDup [3; 0; 7]%Z) as H.
  { repeat constructor; rewrite ?elem_of_cons, ?elem_of_nil; intros H; intuition discriminate. }
  split; [exact H|].
  apply (cards_follow_selection nat false [3; 0; 7]%Z
           (Slider.handlePackageClick nat 7 (Slider.initial nat)).1 H).
Defined.
